(** * Google Ads Transparency scraper: a shallow embedding of [main.py]

    The file has three parts.

    The embedding follows the layout of the source file:
    - [PyStr]   the [str] methods the program calls ([strip], [lower],
                [splitlines], truthiness) and [int];
    - [Re]      the regular expressions of [extract_advertiser_id_from_url] and
                [extract_advertiser_id_from_content], with the leftmost, greedy
                semantics of [re.search] and [re.findall];
    - [Browser] the Playwright session as an environment that answers every
                awaited call with a value or an exception, and the monad the
                [async] functions run in (state, exceptions, early [return]);
    - the functions of [main.py] that the routes reach, and [get_page_content];
    - [scrape_advertiser_page] and [extract_text_from_images], plain functions
      over [requests] that no route calls.

    The vocabulary part defines what the properties speak of: occurrences of a
    pattern, sample environments, what a body ends with, how many calls it
    adds to the trace, which calls it ends with, what a cleaned text looks
    like.

    The last part holds the lemmas and the theorems.

    Strings are [String.string]; a character stands for a code point below
    256 (Latin-1), on which [str.lower], [str.strip] and the classes [\d],
    [\w], [\s] and [[A-Z0-9]] are written out exactly.  What lies outside the
    repository is taken from its documentation: BeautifulSoup answers the
    queries made on the parsed page, [requests.get] and [urljoin] are answered
    by the environment, [str] of an [HTTPException] is ["<status>: <detail>"],
    a name that no import binds raises [NameError], and Playwright bounds a
    call by the timeout passed to it or else by the default in force, a
    timeout of 0 meaning none. *)

From Stdlib Require Import String Ascii ZArith List Lia Bool DecimalString DecimalPos.
From stdpp Require Import gmap strings.

Open Scope string_scope.

(** ** Python [str] *)

Module PyStr.

Definition code (c : ascii) : nat := nat_of_ascii c.

Definition in_range (lo hi : nat) (c : ascii) : bool :=
  (lo <=? code c)%nat && (code c <=? hi)%nat.

(** [str.isspace] on one character: TAB..CR, FS..US, SPACE, NEL, NBSP. *)
Definition isspace (c : ascii) : bool :=
  in_range 9 13 c || in_range 28 32 c ||
  (code c =? 133)%nat || (code c =? 160)%nat.

(** [str.lower] on one character: A-Z, and the Latin-1 capitals
    U+00C0..U+00DE without the multiplication sign U+00D7. *)
Definition lower_char (c : ascii) : ascii :=
  if in_range 65 90 c || (in_range 192 222 c && negb (code c =? 215)%nat)
  then ascii_of_nat (code c + 32)
  else c.

Fixpoint lower (s : string) : string :=
  match s with
  | EmptyString => EmptyString
  | String c s' => String (lower_char c) (lower s')
  end.

Fixpoint lstrip (s : string) : string :=
  match s with
  | String c s' => if isspace c then lstrip s' else s
  | EmptyString => EmptyString
  end.

(** [rstrip] drops the whitespace run that ends the string. *)
Fixpoint rstrip (s : string) : string :=
  match s with
  | EmptyString => EmptyString
  | String c s' =>
      match rstrip s' with
      | EmptyString => if isspace c then EmptyString else String c EmptyString
      | r => String c r
      end
  end.

Definition strip (s : string) : string := rstrip (lstrip s).

(** Truth value of a [str]: non-empty. *)
Definition truthy (s : string) : bool :=
  match s with EmptyString => false | String _ _ => true end.

(** Truth value of an [Optional[str]]. *)
Definition truthy_opt (o : option string) : bool :=
  match o with None => false | Some s => truthy s end.

Definition quote (s : string) : string := "'" +:+ s +:+ "'".

(** Line boundaries of [str.splitlines] below U+0100. *)
Definition is_linebreak (c : ascii) : bool :=
  in_range 10 13 c || in_range 28 30 c || (code c =? 133)%nat.

(** [line] is the line read so far; [after_cr] says that the previous
    character was a carriage return, whose line feed is not a new break. *)
Fixpoint splitlines_from (after_cr : bool) (line : string) (s : string) : list string :=
  match s with
  | EmptyString => if truthy line then [line] else []
  | String c s' =>
      if after_cr && (code c =? 10)%nat then splitlines_from false line s'
      else if is_linebreak c then line :: splitlines_from (code c =? 13)%nat EmptyString s'
      else splitlines_from false (line +:+ String c EmptyString) s'
  end.

Definition splitlines (s : string) : list string := splitlines_from false EmptyString s.

(** Digits of [int(s)]: single underscores may separate digits. *)
Fixpoint int_digits (acc : Z) (after_digit : bool) (s : string) : option Z :=
  match s with
  | EmptyString => if after_digit then Some acc else None
  | String c s' =>
      if (code c =? 95)%nat then
        if after_digit then int_digits acc false s' else None
      else if in_range 48 57 c then
        int_digits (10 * acc + Z.of_nat (code c - 48)) true s'
      else None
  end.

(** [int(s)] in base 10; [None] stands for [ValueError]. *)
Definition int (s : string) : option Z :=
  match strip s with
  | String "-" r => option_map Z.opp (int_digits 0 false r)
  | String "+" r => int_digits 0 false r
  | r => int_digits 0 false r
  end.

End PyStr.

(** ** Regular expressions

    Every pattern of [extract_advertiser_id_from_url] has the shape
    [a1 a2 ... an C+]: [n] atoms that each consume one character, then a
    greedy run of a character class.  Nothing follows the run, so the greedy
    match is the longest run and no backtracking takes place. *)

Module Re.

Inductive atom : Type :=
| Lit (c : ascii)            (* a literal character *)
| OneOf (cs : list ascii).   (* a bracket set such as [?&] *)

Definition atom_matches (a : atom) (c : ascii) : bool :=
  match a with
  | Lit c' => Ascii.eqb c' c
  | OneOf cs => existsb (Ascii.eqb c) cs
  end.

Record pattern : Type := Pattern {
  prefix : list atom;
  cls : ascii -> bool
}.

Definition lits (s : string) : list atom := map Lit (list_ascii_of_string s).

(** [[A-Z0-9]] *)
Definition upper_or_digit (c : ascii) : bool :=
  PyStr.in_range 65 90 c || PyStr.in_range 48 57 c.

(** [\d]: below U+0100 the decimal digits are 0-9. *)
Definition digit (c : ascii) : bool := PyStr.in_range 48 57 c.

(** The result of a successful match: [group 0] and [group 1]. *)
Record rmatch : Type := Match {
  start : nat;
  group0 : string;
  group1 : string
}.

(** Consume the atoms; give back the text they matched and the rest. *)
Fixpoint match_prefix (ats : list atom) (s : string) : option (string * string) :=
  match ats with
  | [] => Some (EmptyString, s)
  | a :: ats' =>
      match s with
      | EmptyString => None
      | String c s' =>
          if atom_matches a c then
            match match_prefix ats' s' with
            | Some (m, rest) => Some (String c m, rest)
            | None => None
            end
          else None
      end
  end.

(** The longest prefix of [s] inside the class (greedy [C*]). *)
Fixpoint run (p : ascii -> bool) (s : string) : string :=
  match s with
  | EmptyString => EmptyString
  | String c s' => if p c then String c (run p s') else EmptyString
  end.

(** [pattern.match(s)]: a match that starts at the first character. *)
Definition match_here (p : pattern) (s : string) : option (string * string) :=
  match match_prefix (prefix p) s with
  | Some (m, rest) =>
      match run (cls p) rest with
      | EmptyString => None
      | r => Some (m, r)
      end
  | None => None
  end.

(** [re.search]: try every start position from the left. *)
Fixpoint search_from (i : nat) (p : pattern) (s : string) : option rmatch :=
  match match_here p s with
  | Some (m, r) => Some (Match i (m +:+ r) r)
  | None =>
      match s with
      | EmptyString => None
      | String _ s' => search_from (S i) p s'
      end
  end.

Definition search (p : pattern) (s : string) : option rmatch := search_from 0 p s.

(** [re.findall(r'P|Q', s)] where [P] has no group and the run of [Q] is
    group 1: with one group in the pattern, [findall] lists group 1 of the
    successive non-overlapping matches, which is [''] where [P] matched.
    [skip] counts the characters still covered by the previous match. *)
Fixpoint findall_alt (p q : pattern) (skip : nat) (s : string) : list string :=
  match s with
  | EmptyString => []
  | String _ s' =>
      match skip with
      | S k => findall_alt p q k s'
      | O =>
          match match_here p s with
          | Some (m, r) =>
              EmptyString :: findall_alt p q (String.length (m +:+ r) - 1) s'
          | None =>
              match match_here q s with
              | Some (m, r) => r :: findall_alt p q (String.length (m +:+ r) - 1) s'
              | None => findall_alt p q 0 s'
              end
          end
      end
  end.

End Re.

(** ** The patterns of [extract_advertiser_id_from_url] (main.py 469-483) *)

(** [r'advertiser/([A-Z0-9]+)'] *)
Definition re_advertiser : Re.pattern :=
  Re.Pattern (Re.lits "advertiser/") Re.upper_or_digit.

(** [r'AR\d+'] *)
Definition re_ar : Re.pattern := Re.Pattern (Re.lits "AR") Re.digit.

(** [r'[?&]id=([A-Z0-9]+)'] *)
Definition re_id_param : Re.pattern :=
  Re.Pattern (Re.OneOf ["?"; "&"]%char :: Re.lits "id=") Re.upper_or_digit.

(** ** Exceptions

    The handlers of [main.py] distinguish Playwright's [TimeoutError], its base
    class [Error], and [Exception]; the endpoint raises [HTTPException]. *)

Inductive exn_class : Type :=
| TimeoutError                     (* playwright.async_api.TimeoutError, an Error *)
| Error                            (* playwright.async_api.Error *)
| HTTPException (status_code : Z)  (* fastapi.HTTPException *)
| ValueError
| Exception.                       (* any other subclass of Exception *)

(** For an [HTTPException] the text is its [detail], otherwise the message. *)
Record exn : Type := Exn { exn_cls : exn_class; exn_text : string }.

Definition except_TimeoutError (e : exn) : bool :=
  match exn_cls e with TimeoutError => true | _ => false end.

Definition except_Error (e : exn) : bool :=
  match exn_cls e with TimeoutError | Error => true | _ => false end.

Definition except_Exception (e : exn) : bool := true.

Definition str_Z (z : Z) : string :=
  NilZero.string_of_int (Z.to_int z).

Definition str_bool (b : bool) : string := if b then "True" else "False".

(** [str(e)]: Starlette's [HTTPException.__str__] gives ["<status>: <detail>"]. *)
Definition str_exn (e : exn) : string :=
  match exn_cls e with
  | HTTPException code => str_Z code +:+ ": " +:+ exn_text e
  | _ => exn_text e
  end.

(** ** The browser session *)

Module Browser.

(** The scripts handed to [page.evaluate]. *)
Inductive js : Type :=
| js_location_href                      (* "window.location.href" *)
| js_click_first_result                 (* main.py 246-280 *)
| js_potential_ids (advertiser : string) (* main.py 409-448 *)
| js_find_search_input                  (* main.py 596-625 *)
| js_video_count.                       (* main.py 807-848 *)

Definition js_result (s : js) : Type :=
  match s with
  | js_location_href => string
  | js_click_first_result => bool
  | js_potential_ids _ => list string
  | js_find_search_input => string
  | js_video_count => Z
  end.

(** Every awaited Playwright call of the program. *)
Inductive call : Type :=
| async_playwright_start
| async_playwright_stop
| chromium_launch
| new_context (viewport_width viewport_height : Z)
| new_page
| browser_close
| page_goto (url : string) (wait_until : option string) (timeout : option Z)
| page_screenshot (path : string)
| page_wait_for_load_state (state : string) (timeout : option Z)
| page_wait_for_selector (selector : string) (timeout : option Z)
| page_wait_for_timeout (ms : Z)
| page_query_selector (selector : string)
| page_click (selector : string)
| page_content
| page_evaluate (script : js)
| element_click
| element_fill (value : string)
| element_press (key : string)
| keyboard_press (key : string)
| keyboard_type (text : string).

(** What a call gives back.  [query_selector] gives an element handle or
    [None]; only its truth value is used. *)
Definition result (c : call) : Type :=
  match c with
  | page_query_selector _ => bool
  | page_content => string
  | page_evaluate s => js_result s
  | _ => unit
  end.

(** Calls on the page, its elements and its keyboard, as opposed to the
    calls that set the session up and tear it down. *)
Definition is_page_op (c : call) : bool :=
  match c with
  | async_playwright_start | async_playwright_stop | chromium_launch
  | new_context _ _ | new_page | browser_close => false
  | _ => true
  end.

(** How Playwright bounds a call in time.  A timeout of 0 switches the
    bound off. *)
Inductive timing : Type :=
| Untimed                          (* the method has no timeout option *)
| Operation (timeout : option Z)   (* governed by the default timeout *)
| Navigation (timeout : option Z)  (* governed by the navigation timeout *)
| Sleep (ms : Z).                  (* wait_for_timeout: a fixed pause *)

Definition timing_of (c : call) : timing :=
  match c with
  | page_goto _ _ t => Navigation t
  | page_wait_for_load_state _ t => Navigation t
  | page_wait_for_selector _ t => Operation t
  | page_screenshot _ | page_click _
  | element_click | element_fill _ | element_press _ => Operation None
  | page_wait_for_timeout ms => Sleep ms
  | _ => Untimed
  end.

(** One awaited call as it happened: the call, the timeout in force
    ([None] when the call takes none), and whether it raised. *)
Record event : Type := Event {
  ev_call : call;
  ev_timeout : option Z;
  ev_raised : bool
}.

(** [BeautifulSoup(content, 'html.parser')] is not part of the program; the
    environment answers the four queries [get_page_content] makes on it. *)
Record soup : Type := Soup {
  (* for each span whose string contains the placeholder text, in document
     order: str(span.find_parent().find('input')), None when there is none *)
  placeholder_spans : list (option string);
  (* str(i) for each input whose class has 'search', 'query' or 'input-area' *)
  class_inputs : list string;
  (* for each element with role search, searchbox or combobox:
     str(elem.find('input')), None when there is none *)
  role_elements : list (option string);
  (* for a text of ['search', 'find', 'lookup']: for each div, section or
     form containing it, str(container.find('input')) *)
  text_containers : string -> list (option string)
}.

Record datetime : Type := Datetime {
  year : Z; month : Z; day : Z;
  hour : Z; minute : Z; second : Z; microsecond : Z
}.

(** The environment: it answers each call, knowing the calls made so far
    (newest first), with an exception or a value. *)
Record Env : Type := {
  reply : list event -> forall c : call, exn + result c;
  page_url : list event -> string;   (* the property page.url *)
  parse_html : string -> soup;
  now : datetime                     (* datetime.datetime.now() *)
}.

Inductive level : Type := INFO | WARNING | ERROR.

Inductive log_msg : Type :=
| Text (s : string)
| Traceback (e : exn).   (* traceback.format_exc() *)

(** The state a coroutine runs in.  [browser_var] and [advertiser_id_var]
    are the local variables [browser] and [advertiser_id], read by [finally] and by the code after a
    handler; the two timeouts are the defaults set on the context or page. *)
Record State : Type := {
  env : Env;
  trace : list event;               (* newest first *)
  log : list (level * log_msg);     (* newest first *)
  default_timeout : Z;
  default_navigation_timeout : option Z;
  browser_var : bool;
  advertiser_id_var : option string
}.

Definition effective_timeout (st : State) (c : call) : option Z :=
  match timing_of c with
  | Untimed => None
  | Operation (Some t) | Navigation (Some t) => Some t
  | Operation None => Some (default_timeout st)
  | Navigation None =>
      Some (match default_navigation_timeout st with
            | Some t => t
            | None => default_timeout st
            end)
  | Sleep ms => Some ms
  end.

Definition with_trace (tr : list event) (st : State) : State :=
  {| env := env st; trace := tr; log := log st;
     default_timeout := default_timeout st;
     default_navigation_timeout := default_navigation_timeout st;
     browser_var := browser_var st; advertiser_id_var := advertiser_id_var st |}.

Definition with_log (l : list (level * log_msg)) (st : State) : State :=
  {| env := env st; trace := trace st; log := l;
     default_timeout := default_timeout st;
     default_navigation_timeout := default_navigation_timeout st;
     browser_var := browser_var st; advertiser_id_var := advertiser_id_var st |}.

Definition with_timeouts (t : Z) (nav : option Z) (st : State) : State :=
  {| env := env st; trace := trace st; log := log st;
     default_timeout := t; default_navigation_timeout := nav;
     browser_var := browser_var st; advertiser_id_var := advertiser_id_var st |}.

Definition with_browser (b : bool) (st : State) : State :=
  {| env := env st; trace := trace st; log := log st;
     default_timeout := default_timeout st;
     default_navigation_timeout := default_navigation_timeout st;
     browser_var := b; advertiser_id_var := advertiser_id_var st |}.

Definition with_advertiser_id (a : option string) (st : State) : State :=
  {| env := env st; trace := trace st; log := log st;
     default_timeout := default_timeout st;
     default_navigation_timeout := default_navigation_timeout st;
     browser_var := browser_var st; advertiser_id_var := a |}.

(** A fresh interpreter state in environment [e]; 30000 ms is Playwright's
    own default timeout. *)
Definition initial (e : Env) : State :=
  {| env := e; trace := []; log := [];
     default_timeout := 30000; default_navigation_timeout := None;
     browser_var := false; advertiser_id_var := None |}.

(** *** The monad of coroutine bodies

    A statement ends normally with a value, with [return r], or with an
    exception. *)
Inductive outcome (R A : Type) : Type :=
| Next (a : A)
| Returned (r : R)
| Raised (e : exn).
Arguments Next {R A} a.
Arguments Returned {R A} r.
Arguments Raised {R A} e.

Definition M (R A : Type) : Type := State -> outcome R A * State.

Definition ret {R A} (a : A) : M R A := fun st => (Next a, st).

Definition bind {R A B} (m : M R A) (k : A -> M R B) : M R B :=
  fun st =>
    match m st with
    | (Next a, st') => k a st'
    | (Returned r, st') => (Returned r, st')
    | (Raised e, st') => (Raised e, st')
    end.

Definition return_ {R A} (r : R) : M R A := fun st => (Returned r, st).

Definition raise {R A} (e : exn) : M R A := fun st => (Raised e, st).

Definition get {R A} (f : State -> A) : M R A := fun st => (Next (f st), st).

Definition modify {R} (f : State -> State) : M R unit := fun st => (Next tt, f st).

(** [await] of a Playwright call: the environment answers, the call is
    appended to the trace. *)
Definition await {R} (c : call) : M R (result c) :=
  fun st =>
    let t := effective_timeout st c in
    match reply (env st) (trace st) c with
    | inl e => (Raised e, with_trace (Event c t true :: trace st) st)
    | inr v => (Next v, with_trace (Event c t false :: trace st) st)
    end.

(** [try: body except <class> as e: handler e] *)
Definition try_except {R A} (body : M R A) (catches : exn -> bool)
    (handler : exn -> M R A) : M R A :=
  fun st =>
    match body st with
    | (Raised e, st') => if catches e then handler e st' else (Raised e, st')
    | r => r
    end.

(** [try: body finally: final].  The [finally] suite runs however [body]
    ended; when it raises or returns itself, that replaces [body]'s end. *)
Definition try_finally {R A} (body : M R A) (final : M R unit) : M R A :=
  fun st =>
    match body st with
    | (o, st') =>
        match final st' with
        | (Next _, st'') => (o, st'')
        | (Returned r, st'') => (Returned r, st'')
        | (Raised e, st'') => (Raised e, st'')
        end
    end.

(** [for x in xs: body x], where the body says whether it ran into [break]. *)
Inductive flow : Type := Continue | Break.

Fixpoint for_ {R X} (xs : list X) (body : X -> M R flow) : M R unit :=
  match xs with
  | [] => ret tt
  | x :: xs' =>
      bind (body x) (fun f =>
        match f with
        | Break => ret tt
        | Continue => for_ xs' body
        end)
  end.

(** A coroutine seen from its caller: it raises or gives a value. *)
Definition fn (A : Type) : Type := State -> (exn + A) * State.

(** [async def]: in the body, [return r] gives [r].  Every body below ends
    in a [return_] on each path; a body that ran to its end gives the value
    of its last statement. *)
Definition def {R} (body : M R R) : fn R :=
  fun st =>
    match body st with
    | (Next r, st') => (inr r, st')
    | (Returned r, st') => (inr r, st')
    | (Raised e, st') => (inl e, st')
    end.

(** [await f(...)] inside another body. *)
Definition invoke {R A} (f : fn A) : M R A :=
  fun st =>
    match f st with
    | (inr a, st') => (Next a, st')
    | (inl e, st') => (Raised e, st')
    end.

Definition logging (l : level) (m : string) : State -> State :=
  fun st => with_log ((l, Text m) :: log st) st.

Definition logging_info {R} (m : string) : M R unit := modify (logging INFO m).
Definition logging_warning {R} (m : string) : M R unit := modify (logging WARNING m).
Definition logging_error {R} (m : string) : M R unit := modify (logging ERROR m).

(** [logging.error(traceback.format_exc())] *)
Definition logging_traceback {R} (e : exn) : M R unit :=
  modify (fun st => with_log ((ERROR, Traceback e) :: log st) st).

(** [context.set_default_timeout(t)] *)
Definition set_default_timeout {R} (t : Z) : M R unit :=
  modify (fun st => with_timeouts t (default_navigation_timeout st) st).

(** [page.set_default_navigation_timeout(t)] *)
Definition set_default_navigation_timeout {R} (t : Z) : M R unit :=
  modify (fun st => with_timeouts (default_timeout st) (Some t) st).

(** [browser.new_context(...)]: a new context starts from Playwright's
    default timeout. *)
Definition browser_new_context {R} (w h : Z) : M R unit :=
  bind (await (new_context w h)) (fun _ =>
    modify (with_timeouts 30000 None)).

End Browser.

Import Browser.

Declare Scope py_scope.
Delimit Scope py_scope with py.
Notation "x <- m ;; k" := (bind m (fun x => k))
  (at level 100, m at level 99, right associativity) : py_scope.
Notation "m ;; k" := (bind m (fun _ => k))
  (at level 100, right associativity) : py_scope.
Open Scope py_scope.

(** ** Module-level configuration (main.py 33-40) *)

(** [int(os.environ.get(key, default))] *)
Definition environ_int (environ : gmap string string) (key : string) (default : Z)
  : exn + Z :=
  match environ !! key with
  | None => inr default
  | Some s =>
      match PyStr.int s with
      | Some z => inr z
      | None =>
          inl (Exn ValueError
                 ("invalid literal for int() with base 10: " +:+ PyStr.quote s))
      end
  end.

Definition NAVIGATION_TIMEOUT (environ : gmap string string) : exn + Z :=
  environ_int environ "NAVIGATION_TIMEOUT" 60000.

Definition WAIT_TIMEOUT (environ : gmap string string) : exn + Z :=
  environ_int environ "WAIT_TIMEOUT" 30000.

(** ** The pydantic models (main.py 43-68) *)

Record AdvertiserRequest : Type := { advertiser_name : string }.

Record AdvertiserResponse : Type := {
  advertiser_google_id : option string;
  has_videos : option bool;
  video_count : option Z
}.

Record PingResponse : Type := {
  status : string;
  timestamp : string;
  version : string
}.

(** ** [ping] (main.py 74-83) *)

(** Decimal digits of [z], padded with zeros to [width]. *)
Definition zero_pad (width : nat) (z : Z) : string :=
  let d := str_Z z in
  string_of_list_ascii (repeat "0"%char (width - String.length d)) +:+ d.

(** [datetime.isoformat()] of a naive datetime. *)
Definition isoformat (d : datetime) : string :=
  zero_pad 4 (year d) +:+ "-" +:+ zero_pad 2 (month d) +:+ "-" +:+ zero_pad 2 (day d)
  +:+ "T" +:+ zero_pad 2 (hour d) +:+ ":" +:+ zero_pad 2 (minute d)
  +:+ ":" +:+ zero_pad 2 (second d)
  +:+ (if (microsecond d =? 0)%Z then "" else "." +:+ zero_pad 6 (microsecond d)).

Definition ping : fn PingResponse :=
  def (
    t <- get (fun st => now (env st));;
    return_ {| status := "ok"; timestamp := isoformat t; version := "1.0.0" |}).

(** ** [extract_advertiser_id_from_url] (main.py 464-490) *)

Definition extract_advertiser_id_from_url (url : string) : fn (option string) :=
  def (
    logging_info ("Extracting advertiser ID from URL: " +:+ url);;
    match Re.search re_advertiser url with
    | Some advertiser_id_match =>
        let advertiser_id := Re.group1 advertiser_id_match in
        logging_info ("Found advertiser ID in URL: " +:+ advertiser_id);;
        return_ (Some advertiser_id)
    | None => ret tt
    end;;
    match Re.search re_ar url with
    | Some ar_match =>
        let advertiser_id := Re.group0 ar_match in
        logging_info ("Found AR ID in URL: " +:+ advertiser_id);;
        return_ (Some advertiser_id)
    | None => ret tt
    end;;
    match Re.search re_id_param url with
    | Some id_param_match =>
        let advertiser_id := Re.group1 id_param_match in
        logging_info ("Found ID in query parameter: " +:+ advertiser_id);;
        return_ (Some advertiser_id)
    | None => ret tt
    end;;
    logging_info "No advertiser ID found in URL";;
    return_ None).

(** ** [extract_advertiser_id_from_content] (main.py 380-461) *)

Definition extract_advertiser_id_from_content (advertiser_name : string)
  : fn (option string) :=
  def (
    logging_info "Trying to extract advertiser ID from page content";;
    await (page_screenshot "screenshots/page_content.png");;
    try_except (
      content <- await page_content;;
      (* Method 1: ar_pattern = r'AR\d+|advertiser\/([A-Z0-9]+)' *)
      let matches := Re.findall_alt re_ar re_advertiser 0 content in
      match matches with
      | [] => ret tt
      | _ :: _ =>
          let valid_matches := List.filter PyStr.truthy matches in
          (* no element of [matches] is a tuple *)
          let tuple_matches : list string := [] in
          let all_matches := (valid_matches ++ tuple_matches)%list in
          match all_matches with
          | advertiser_id :: _ =>
              logging_info ("Found advertiser ID in page content: " +:+ advertiser_id);;
              return_ (Some advertiser_id)
          | [] => ret tt
          end
      end;;
      (* Method 2 *)
      try_except (
        js_result <- await (page_evaluate (js_potential_ids (PyStr.lower advertiser_name)));;
        match js_result with
        | advertiser_id :: _ =>
            logging_info ("Found advertiser ID via JS: " +:+ advertiser_id);;
            return_ (Some advertiser_id)
        | [] => ret tt
        end)
      except_Exception (fun e =>
        logging_warning ("Error in JS extraction: " +:+ str_exn e)))
    except_Exception (fun e =>
      logging_error ("Error extracting from page content: " +:+ str_exn e));;
    return_ None).

(** ** [get_advertiser_id] (main.py 127-377) *)

(** Hard-coded known IDs for specific advertisers (main.py 135-137). *)
Definition known_ids : gmap string string :=
  {[ "adidas" := "AR14017378248766259201" ]}.

Definition home : string := "https://adstransparency.google.com/".

Definition str_opt (o : option string) : string :=
  match o with Some s => s | None => "None" end.

Definition set_advertiser_id {R} (a : option string) : M R unit :=
  modify (with_advertiser_id a).

(** APPROACH 1, one turn of [for attempt in range(3)] (main.py 216-237). *)
Definition url_attempt_1 (pre_search_url : string) (attempt : Z)
  : M (option string) flow :=
  f <- try_except (
         logging_info ("Attempt " +:+ str_Z (attempt + 1)
                       +:+ " to get current URL via JavaScript");;
         current_url <- await (page_evaluate js_location_href);;
         logging_info ("Current URL from JavaScript: " +:+ current_url);;
         if PyStr.truthy current_url && negb (String.eqb current_url pre_search_url)
         then
           logging_info "URL changed after search";;
           found <- invoke (extract_advertiser_id_from_url current_url);;
           set_advertiser_id found;;
           advertiser_id <- get advertiser_id_var;;
           if PyStr.truthy_opt advertiser_id then
             logging_info ("Found advertiser ID in URL: " +:+ str_opt advertiser_id);;
             return_ advertiser_id
           else
             (* URL changed but no ID found *)
             ret Break
         else ret Continue)
       except_Error (fun e =>
         logging_warning ("Error getting URL via JavaScript: " +:+ str_exn e);;
         ret Continue);;
  match f with
  | Break => ret Break
  | Continue =>
      (* Wait a bit before next attempt *)
      await (page_wait_for_timeout 2000);;
      ret Continue
  end.

(** APPROACH 2: click on a search result (main.py 239-301). *)
Definition click_search_results : M (option string) unit :=
  logging_info "Checking for search results to click";;
  await (page_screenshot "screenshots/before_clicking_results.png");;
  try_except (
    clicked <- await (page_evaluate js_click_first_result);;
    if clicked : bool then
      logging_info "Clicked a search result using JavaScript";;
      await (page_wait_for_timeout 3000);;
      try_except (
        current_url <- await (page_evaluate js_location_href);;
        logging_info ("URL after clicking result: " +:+ current_url);;
        found <- invoke (extract_advertiser_id_from_url current_url);;
        set_advertiser_id found;;
        advertiser_id <- get advertiser_id_var;;
        if PyStr.truthy_opt advertiser_id then
          logging_info ("Found advertiser ID after clicking: " +:+ str_opt advertiser_id);;
          return_ advertiser_id
        else ret tt)
      except_Error (fun e =>
        logging_warning ("Error getting URL after clicking: " +:+ str_exn e))
    else ret tt)
  except_Error (fun e =>
    logging_warning ("Error trying to click search results: " +:+ str_exn e)).

(** Strategy 1: direct input selection (main.py 170-310). *)
Definition strategy_1 (advertiser_name : string) : M (option string) unit :=
  try_except (
    logging_info "Trying Strategy 1: Direct input selection";;
    await (page_wait_for_load_state "domcontentloaded" None);;
    await (page_wait_for_selector "input.input.input-area" (Some 10000%Z));;
    search_input <- await (page_query_selector "input.input.input-area");;
    if search_input : bool then
      await element_click;;
      await (page_wait_for_timeout 500);;
      await (element_fill "");;
      await (page_wait_for_timeout 300);;
      await (element_fill advertiser_name);;
      logging_info ("Entered advertiser name: " +:+ advertiser_name);;
      await (page_screenshot "screenshots/before_search.png");;
      pre_search_url <- get (fun st => page_url (env st) (trace st));;
      logging_info ("URL before search: " +:+ pre_search_url);;
      await (element_press "Enter");;
      logging_info "Pressed Enter to submit search";;
      await (page_wait_for_timeout 2000);;
      try_except (
        await (page_wait_for_load_state "domcontentloaded" (Some 10000%Z));;
        logging_info "Page DOM content loaded after search")
      except_TimeoutError (fun _ =>
        logging_warning "Timeout waiting for DOM content load, continuing anyway");;
      await (page_screenshot "screenshots/after_search.png");;
      for_ [0; 1; 2]%Z (url_attempt_1 pre_search_url);;
      click_search_results;;
      (* APPROACH 3 *)
      advertiser_id <- get advertiser_id_var;;
      if negb (PyStr.truthy_opt advertiser_id) then
        found <- invoke (extract_advertiser_id_from_content advertiser_name);;
        set_advertiser_id found
      else ret tt
    else
      logging_warning "Could not find search input with expected selector")
  except_Exception (fun e =>
    logging_error ("Error with strategy 1: " +:+ str_exn e);;
    await (page_screenshot "screenshots/strategy1_error.png")).

(** Strategy 2, one turn of [for attempt in range(3)] (main.py 341-354). *)
Definition url_attempt_2 (pre_search_url : string) (attempt : Z)
  : M (option string) flow :=
  try_except (
    current_url <- await (page_evaluate js_location_href);;
    logging_info ("Strategy 2 URL: " +:+ current_url);;
    if PyStr.truthy current_url && negb (String.eqb current_url pre_search_url)
    then
      found <- invoke (extract_advertiser_id_from_url current_url);;
      set_advertiser_id found;;
      advertiser_id <- get advertiser_id_var;;
      if PyStr.truthy_opt advertiser_id then
        logging_info ("Found advertiser ID in strategy 2: " +:+ str_opt advertiser_id);;
        return_ advertiser_id
      else ret tt
    else ret tt)
  except_Error (fun e =>
    logging_warning ("Error getting URL in strategy 2: " +:+ str_exn e));;
  await (page_wait_for_timeout 2000);;
  ret Continue.

(** Strategy 2: keyboard navigation (main.py 312-361). *)
Definition strategy_2 (advertiser_name : string) : M (option string) unit :=
  try_except (
    logging_info "Trying Strategy 2: Using keyboard navigation";;
    await (page_goto home (Some "networkidle") None);;
    await (page_wait_for_load_state "domcontentloaded" None);;
    await (page_click "body");;
    for_ [0; 1; 2]%Z (fun _ =>
      await (keyboard_press "Tab");;
      await (page_wait_for_timeout 300);;
      ret Continue);;
    await (keyboard_type advertiser_name);;
    logging_info ("Entered advertiser name using keyboard: " +:+ advertiser_name);;
    pre_search_url <- await (page_evaluate js_location_href);;
    await (keyboard_press "Enter");;
    logging_info "Pressed Enter to submit search";;
    await (page_wait_for_timeout 3000);;
    for_ [0; 1; 2]%Z (url_attempt_2 pre_search_url);;
    advertiser_id <- get advertiser_id_var;;
    if negb (PyStr.truthy_opt advertiser_id) then
      found <- invoke (extract_advertiser_id_from_content advertiser_name);;
      set_advertiser_id found
    else ret tt)
  except_Exception (fun e =>
    logging_error ("Error with strategy 2: " +:+ str_exn e);;
    await (page_screenshot "screenshots/strategy2_error.png")).

(** [finally: if browser: await browser.close()] *)
Definition close_browser {R} : M R unit :=
  b <- get browser_var;;
  if b : bool then await browser_close else ret tt.

(** The search itself, once the context has its timeout (main.py 159-368). *)
Definition search_strategies (advertiser_name : string)
  : M (option string) (option string) :=
  await new_page;;
  logging_info ("Navigating to " +:+ home);;
  await (page_goto home (Some "networkidle") None);;
  await (page_screenshot "screenshots/initial_page.png");;
  logging_info "Page loaded, looking for search input";;
  set_advertiser_id None;;
  strategy_1 advertiser_name;;
  advertiser_id <- get advertiser_id_var;;
  (if negb (PyStr.truthy_opt advertiser_id)
   then strategy_2 advertiser_name else ret tt);;
  advertiser_id <- get advertiser_id_var;;
  if PyStr.truthy_opt advertiser_id then
    logging_info ("Found advertiser ID: " +:+ str_opt advertiser_id);;
    return_ advertiser_id
  else
    logging_warning "No advertiser ID found";;
    return_ None.

(** The suite of the outer [try] (main.py 147-368). *)
Definition search_session (advertiser_name : string)
  : M (option string) (option string) :=
  await async_playwright_start;;
  await chromium_launch;;
  modify (with_browser true);;
  browser_new_context 1280 720;;
  set_default_timeout 90000;;
  search_strategies advertiser_name.

(** [except Exception as e] of the outer [try] (main.py 370-374). *)
Definition search_failed {A} (e : exn) : M (option string) A :=
  logging_error ("Error in get_advertiser_id: " +:+ str_exn e);;
  logging_traceback e;;
  return_ None.

(** The browser session of [get_advertiser_id] (main.py 145-377). *)
Definition search_advertiser_id (advertiser_name : string)
  : M (option string) (option string) :=
  modify (with_browser false);;
  try_finally (
    try_except (search_session advertiser_name) except_Exception search_failed)
  close_browser.

Definition get_advertiser_id (advertiser_name : string) : fn (option string) :=
  def (
    logging_info ("Searching for advertiser ID for: " +:+ advertiser_name);;
    match known_ids !! PyStr.lower advertiser_name with
    | Some advertiser_id =>
        logging_info ("Using known advertiser ID for " +:+ advertiser_name
                      +:+ ": " +:+ advertiser_id);;
        return_ (Some advertiser_id)
    | None => search_advertiser_id advertiser_name
    end).

(** ** [check_advertiser_videos] (main.py 754-869) *)

(** Hard-coded results for known IDs (main.py 768-770). *)
Definition known_video_counts : gmap string Z :=
  {[ "AR14017378248766259201" := 34%Z ]}.

(** [except Exception as e] of both [try] statements (main.py 857-866). *)
Definition videos_failed {A} (e : exn) : M (bool * option Z) A :=
  logging_error ("Error checking for videos: " +:+ str_exn e);;
  logging_traceback e;;
  return_ (false, None).

(** The suite of the inner [try] (main.py 799-856). *)
Definition video_detection (advertiser_id video_url : string)
  : M (bool * option Z) (bool * option Z) :=
  await (page_goto video_url (Some "domcontentloaded") (Some 45000%Z));;
  await (page_screenshot ("screenshots/" +:+ advertiser_id +:+ "_video_page.png"));;
  await (page_wait_for_load_state "domcontentloaded" None);;
  video_count <- await (page_evaluate js_video_count);;
  let has_videos := (0 <? video_count)%Z in
  logging_info ("Advertiser " +:+ advertiser_id +:+ " has_videos: "
                +:+ str_bool has_videos +:+ ", video_count: " +:+ str_Z video_count);;
  await (page_screenshot ("screenshots/" +:+ advertiser_id +:+ "_video_detection.png"));;
  return_ (has_videos, Some video_count).

(** The video page, once the context has its timeout (main.py 792-861). *)
Definition video_page (advertiser_id : string)
  : M (bool * option Z) (bool * option Z) :=
  await new_page;;
  let video_url := home +:+ "advertiser/" +:+ advertiser_id
                   +:+ "?region=US&format=VIDEO" in
  logging_info ("Navigating to video page: " +:+ video_url);;
  try_except (video_detection advertiser_id video_url) except_Exception videos_failed.

(** The suite of the outer [try] (main.py 780-861). *)
Definition video_session (advertiser_id : string)
  : M (bool * option Z) (bool * option Z) :=
  await async_playwright_start;;
  await chromium_launch;;
  modify (with_browser true);;
  browser_new_context 1280 720;;
  set_default_timeout 60000;;
  video_page advertiser_id.

(** The browser session of [check_advertiser_videos] (main.py 778-869). *)
Definition count_videos (advertiser_id : string)
  : M (bool * option Z) (bool * option Z) :=
  modify (with_browser false);;
  try_finally (
    try_except (video_session advertiser_id) except_Exception videos_failed)
  close_browser.

Definition check_advertiser_videos (advertiser_id : string)
  : fn (bool * option Z) :=
  def (
    logging_info ("Checking for videos for advertiser ID: " +:+ advertiser_id);;
    match known_video_counts !! advertiser_id with
    | Some video_count =>
        logging_info ("Using known video count for " +:+ advertiser_id
                      +:+ ": " +:+ str_Z video_count);;
        return_ (true, Some video_count)
    | None => count_videos advertiser_id
    end).

(** ** [scrape_advertiser_endpoint] (main.py 86-124) *)

Definition scrape_advertiser_endpoint (request : AdvertiserRequest)
  : fn AdvertiserResponse :=
  def (
    let advertiser_name := PyStr.strip (advertiser_name request) in
    if negb (PyStr.truthy advertiser_name) then
      raise (Exn (HTTPException 400) "Advertiser name cannot be empty")
    else
      try_except (
        advertiser_id <- invoke (get_advertiser_id advertiser_name);;
        match advertiser_id with
        | Some (String _ _ as advertiser_id) =>
            r <- invoke (check_advertiser_videos advertiser_id);;
            return_ {| advertiser_google_id := Some advertiser_id;
                       has_videos := Some (fst r);
                       video_count := snd r |}
        | _ =>
            (* if not advertiser_id *)
            raise (Exn (HTTPException 404)
                     ("No advertiser ID found for " +:+ PyStr.quote advertiser_name))
        end)
      except_Exception (fun e =>
        logging_error ("Error during scraping: " +:+ str_exn e);;
        logging_traceback e;;
        raise (Exn (HTTPException 500) ("Error during scraping: " +:+ str_exn e)))).

(** ** [get_page_content] (main.py 493-649) *)

Record page_content_dict : Type := {
  dom_content : list string;
  search_input : string
}.

(** [for x in found: if x: search_input = str(x); break], where [found] lists
    the input each candidate element leads to. *)
Fixpoint first_input (found : list (option string)) (search_input : string) : string :=
  match found with
  | [] => search_input
  | Some i :: _ => i
  | None :: rest => first_input rest search_input
  end.

(** First approach: the placeholder text in a span (main.py 536-550). *)
Definition by_placeholder (sp : soup) (search_input : string) : string :=
  first_input (placeholder_spans sp) search_input.

(** Second approach: an input with a search-related class (main.py 552-561). *)
Definition by_class (sp : soup) (search_input : string) : string :=
  if negb (PyStr.truthy search_input) then
    match class_inputs sp with
    | i :: _ => i
    | [] => search_input
    end
  else search_input.

(** Third approach: elements with a search-related role (main.py 563-574). *)
Definition by_role (sp : soup) (search_input : string) : string :=
  if negb (PyStr.truthy search_input) then first_input (role_elements sp) search_input
  else search_input.

(** Fourth approach: containers with search-related text (main.py 576-591). *)
Definition by_container_text (sp : soup) (search_input : string) : string :=
  if negb (PyStr.truthy search_input) then
    let search_containers :=
      flat_map (text_containers sp) ["search"; "find"; "lookup"] in
    first_input search_containers search_input
  else search_input.

(** The search for the search box (main.py 532-633). *)
Definition find_search_input {R} (sp : soup) : M R string :=
  let search_input := "" in
  let search_input := by_placeholder sp search_input in
  let search_input := by_class sp search_input in
  let search_input := by_role sp search_input in
  let search_input := by_container_text sp search_input in
  (* the page evaluation method *)
  search_input <-
    (if negb (PyStr.truthy search_input) then
       search_input_js <- await (page_evaluate js_find_search_input);;
       if PyStr.truthy search_input_js then ret search_input_js else ret search_input
     else ret search_input);;
  if negb (PyStr.truthy search_input) then
    await (page_screenshot "search_input_not_found.png");;
    ret "No search input found"
  else ret search_input.

(** The suite of the [try] (main.py 519-638). *)
Definition read_page : M page_content_dict page_content_dict :=
  await (page_goto home None None);;
  await (page_wait_for_load_state "networkidle" None);;
  content <- await page_content;;
  let dom_list := PyStr.splitlines content in
  sp <- get (fun st => parse_html (env st) content);;
  search_input <- find_search_input sp;;
  return_ {| dom_content := dom_list; search_input := search_input |}.

(** [except Exception as e] (main.py 639-646). *)
Definition read_page_failed {A} (e : exn) : M page_content_dict A :=
  try_except (await (page_screenshot "error_screenshot.png"))
    except_Exception (fun _ => ret tt);;
  raise (Exn Exception ("Error getting page content: " +:+ str_exn e)).

(** The [try] statement with its [finally] (main.py 518-649). *)
Definition read_page_guarded : M page_content_dict page_content_dict :=
  try_finally (try_except read_page except_Exception read_page_failed)
    (await browser_close).

Definition get_page_content (NAVIGATION_TIMEOUT WAIT_TIMEOUT : Z)
  : fn page_content_dict :=
  def (
    (* async with async_playwright() as p *)
    await async_playwright_start;;
    try_finally (
      await chromium_launch;;
      browser_new_context 1280 800;;
      await new_page;;
      set_default_navigation_timeout NAVIGATION_TIMEOUT;;
      set_default_timeout WAIT_TIMEOUT;;
      read_page_guarded)
    (await async_playwright_stop)).

(** ** The plain functions over [requests] (main.py 652-751)

    [scrape_advertiser_page] and [extract_text_from_images] are called from no
    route.  The network, the HTML parser and [urljoin] lie outside the
    program and are answered by a [Web]. *)

Module Requests.

Record request : Type := Request {
  url : string;
  user_agent : string;     (* headers["User-Agent"] *)
  timeout : option Z       (* in seconds; None when no timeout is passed *)
}.

Record response : Type := Response {
  status_code : Z;
  text : string
}.

Record Web : Type := {
  (* requests.get, knowing the requests sent so far (newest first) *)
  get : list request -> request -> exn + response;
  (* [tag.name for tag in BeautifulSoup(text, 'html.parser').find_all()] *)
  tag_names : string -> list string;
  (* [img.get('src') for img in BeautifulSoup(text, 'html.parser').find_all('img')] *)
  img_srcs : string -> list (option string);
  (* urllib.parse.urljoin *)
  urljoin : string -> string -> string
}.

(** The state of a plain function: the requests sent and the lines printed,
    newest first. *)
Record Run : Type := {
  sent : list request;
  printed : list string
}.

Definition P (A : Type) : Type := Run -> (exn + A) * Run.

Definition pure {A} (a : A) : P A := fun st => (inr a, st).

Definition raise {A} (e : exn) : P A := fun st => (inl e, st).

Definition bind {A B} (m : P A) (k : A -> P B) : P B :=
  fun st =>
    match m st with
    | (inr a, st') => k a st'
    | (inl e, st') => (inl e, st')
    end.

(** [try: body except Exception as e: handler e] *)
Definition try_except {A} (body : P A) (handler : exn -> P A) : P A :=
  fun st =>
    match body st with
    | (inl e, st') => handler e st'
    | r => r
    end.

Definition requests_get (w : Web) (r : request) : P response :=
  fun st => (get w (sent st) r, {| sent := r :: sent st; printed := printed st |}).

Definition print (line : string) : P unit :=
  fun st => (inr tt, {| sent := sent st; printed := line :: printed st |}).

End Requests.

Definition windows_user_agent : string :=
  "Mozilla/5.0 (Windows NT 10.0; Win64; x64) AppleWebKit/537.36 "
  +:+ "(KHTML, like Gecko) Chrome/91.0.4472.124 Safari/537.36".

(** [s.startswith(prefix)] *)
Definition startswith (prefix s : string) : bool := String.prefix prefix s.

(** ** [scrape_advertiser_page] (main.py 652-699) *)

(** [for img in img_elements] (main.py 688-697), [image_urls] being the list
    built so far. *)
Fixpoint collect_image_urls (w : Requests.Web) (base_url : string)
    (img_elements : list (option string)) (image_urls : list string) : list string :=
  match img_elements with
  | [] => image_urls
  | src :: rest =>
      collect_image_urls w base_url rest
        (match src with
         | Some src =>
             if PyStr.truthy src then
               let src :=
                 if negb (startswith "http://" src || startswith "https://" src
                          || startswith "data:" src)
                 then Requests.urljoin w base_url src
                 else src in
               if negb (startswith "data:" src) then (image_urls ++ [src])%list
               else image_urls
             else image_urls
         | None => image_urls
         end)
  end.

(** The result is [(list(all_tags), image_urls)]; the order in which a set is
    listed is not determined by the program, and the set itself is kept. *)
Definition scrape_advertiser_page (w : Requests.Web) (advertiser_id : string)
  : Requests.P (gset string * list string) :=
  let base_url := "https://adstransparency.google.com/advertiser/" +:+ advertiser_id
                  +:+ "?region=US" in
  Requests.bind (Requests.requests_get w (Requests.Request base_url windows_user_agent None))
    (fun response =>
  if negb (Requests.status_code response =? 200)%Z then
    Requests.raise (Exn Exception ("Failed to fetch advertiser page: HTTP "
                                   +:+ str_Z (Requests.status_code response)))
  else
    let all_tags : gset string := list_to_set (Requests.tag_names w (Requests.text response)) in
    let img_elements := Requests.img_srcs w (Requests.text response) in
    Requests.pure (all_tags, collect_image_urls w base_url img_elements [])).

(** ** [extract_text_from_images] (main.py 702-751) *)

(** [\w] below U+0100: letters, digits (with the superscripts and the vulgar
    fractions, which [str.isalnum] accepts) and the underscore. *)
Definition word_char (c : ascii) : bool :=
  PyStr.in_range 48 57 c || PyStr.in_range 65 90 c || (PyStr.code c =? 95)%nat
  || PyStr.in_range 97 122 c || (PyStr.code c =? 170)%nat || PyStr.in_range 178 179 c
  || (PyStr.code c =? 181)%nat || PyStr.in_range 185 186 c || PyStr.in_range 188 190 c
  || PyStr.in_range 192 214 c || PyStr.in_range 216 246 c || PyStr.in_range 248 255 c.

(** [re.sub(r'[^\w\s]', '', text)] *)
Fixpoint remove_special (text : string) : string :=
  match text with
  | EmptyString => EmptyString
  | String c s =>
      if word_char c || PyStr.isspace c then String c (remove_special s)
      else remove_special s
  end.

(** [re.sub(r'\s+', ' ', text)]: every maximal run of whitespace becomes one
    space.  [in_run] says that the previous character was whitespace. *)
Fixpoint collapse_whitespace (in_run : bool) (text : string) : string :=
  match text with
  | EmptyString => EmptyString
  | String c s =>
      if PyStr.isspace c then
        if in_run then collapse_whitespace true s
        else String " " (collapse_whitespace true s)
      else String c (collapse_whitespace false s)
  end.

(** The cleaning of the text read from an image (main.py 731-745); [None]
    when nothing is appended to [results]. *)
Definition clean_text (text : string) : option string :=
  if PyStr.truthy text && (0 <? String.length (PyStr.strip text))%nat then
    let text := PyStr.lower text in
    let text := remove_special text in
    let text := collapse_whitespace false text in
    let text := PyStr.strip text in
    if PyStr.truthy text then Some text else None
  else None.

(** [main.py] imports neither [PIL.Image] nor [io] nor [pytesseract]
    (main.py 1-13): looking the name up raises [NameError]. *)
Definition name_error (name : string) : exn :=
  Exn Exception ("name '" +:+ name +:+ "' is not defined").

(** The suite of the [try] (main.py 711-745): the text to append, if any. *)
Definition read_image (w : Requests.Web) (url : string) : Requests.P (option string) :=
  Requests.bind (Requests.requests_get w (Requests.Request url windows_user_agent (Some 10%Z)))
    (fun response =>
  if negb (Requests.status_code response =? 200)%Z then Requests.pure None   (* continue *)
  else
    (* img = Image.open(io.BytesIO(response.content)) *)
    Requests.bind (Requests.raise (name_error "Image")) (fun img : unit =>
    (* text = pytesseract.image_to_string(img) *)
    Requests.bind (Requests.raise (name_error "pytesseract")) (fun text : string =>
    Requests.pure (clean_text text)))).

(** [for url in image_urls], [results] being the list built so far. *)
Fixpoint read_images (w : Requests.Web) (image_urls : list string) (results : list string)
  : Requests.P (list string) :=
  match image_urls with
  | [] => Requests.pure results
  | url :: rest =>
      Requests.bind
        (Requests.try_except (read_image w url) (fun e =>
           Requests.bind
             (Requests.print ("Error processing image " +:+ url +:+ ": " +:+ str_exn e))
             (fun _ => Requests.pure None)))
        (fun text =>
           read_images w rest
             (match text with
              | Some text => (results ++ [text])%list
              | None => results
              end))
  end.

Definition extract_text_from_images (w : Requests.Web) (image_urls : list string)
  : Requests.P (list string) :=
  read_images w image_urls [].

(** ** The HTTP surface (main.py 71, 74, 86) *)

Inductive http_method : Type := GET | POST.

Inductive endpoint : Type :=
| ping_endpoint       (* ping *)
| scrape_endpoint.    (* scrape_advertiser_endpoint *)

(** The routes registered on [app] by [@app.get] and [@app.post]. *)
Definition routes : list (http_method * string * endpoint) :=
  [ (GET, "/ping", ping_endpoint); (POST, "/scrape", scrape_endpoint) ].

Inductive http_body : Type :=
| ping_body (r : PingResponse)
| advertiser_body (r : AdvertiserResponse)
| detail_body (detail : string).

Record http_response : Type := {
  status_code : Z;
  body : http_body
}.

Record http_request : Type := {
  method : http_method;
  path : string;
  json : option AdvertiserRequest    (* the body, when it validates *)
}.

Definition http_method_eqb (a b : http_method) : bool :=
  match a, b with GET, GET | POST, POST => true | _, _ => false end.

Definition find_route (m : http_method) (p : string) : option endpoint :=
  match List.find (fun r => http_method_eqb (fst (fst r)) m && String.eqb (snd (fst r)) p)
                  routes with
  | Some r => Some (snd r)
  | None => None
  end.

(** What the framework sends for the end of an endpoint: the model as JSON
    with status 200, or the status and detail of an [HTTPException]. *)
Definition respond {A} (wrap : A -> http_body) (o : exn + A) : http_response :=
  match o with
  | inr r => {| status_code := 200; body := wrap r |}
  | inl e =>
      match exn_cls e with
      | HTTPException code => {| status_code := code; body := detail_body (exn_text e) |}
      | _ => {| status_code := 500; body := detail_body "Internal Server Error" |}
      end
  end.

Definition app (req : http_request) (st : State) : http_response * State :=
  match find_route (method req) (path req) with
  | Some ping_endpoint =>
      let (o, st') := ping st in (respond ping_body o, st')
  | Some scrape_endpoint =>
      match json req with
      | Some request =>
          let (o, st') := scrape_advertiser_endpoint request st in
          (respond advertiser_body o, st')
      | None => ({| status_code := 422; body := detail_body "Unprocessable Entity" |}, st)
      end
  | None =>
      if existsb (fun r => String.eqb (snd (fst r)) (path req)) routes
      then ({| status_code := 405; body := detail_body "Method Not Allowed" |}, st)
      else ({| status_code := 404; body := detail_body "Not Found" |}, st)
  end.

(** * The vocabulary of the properties *)

(** ** What [re.search] finds

    [occurs_at p s i m r]: at offset [i] of [s] the atoms of [p] match the
    text [m], followed by the run [r] of the class of [p]; [r] is not empty and
    cannot be extended.  [Re.search] finds the occurrence with the least
    offset. *)

Module ReSpec.
Import Re.

Fixpoint all_in (p : ascii -> bool) (s : string) : Prop :=
  match s with
  | EmptyString => True
  | String c s' => p c = true /\ all_in p s'
  end.

Definition stops (p : ascii -> bool) (after : string) : Prop :=
  match after with
  | EmptyString => True
  | String c _ => p c = false
  end.

Fixpoint atoms_match (ats : list atom) (m : string) : Prop :=
  match ats, m with
  | [], EmptyString => True
  | a :: ats', String c m' => atom_matches a c = true /\ atoms_match ats' m'
  | _, _ => False
  end.

Definition occurs_at (p : pattern) (s : string) (i : nat) (m r : string) : Prop :=
  exists before after,
    s = before +:+ m +:+ r +:+ after /\ String.length before = i /\
    atoms_match (prefix p) m /\ r <> EmptyString /\
    all_in (cls p) r /\ stops (cls p) after.


Definition first_occurrence (p : pattern) (s : string) (i : nat) (m r : string) : Prop :=
  occurs_at p s i m r /\ forall j m' r', (j < i)%nat -> ~ occurs_at p s j m' r'.

End ReSpec.


(** ** Sample environments *)

(** The answer of a call that succeeds and finds nothing. *)
Definition nothing (c : call) : result c :=
  match c with
  | page_query_selector _ => false
  | page_content => EmptyString
  | page_evaluate s =>
      match s with
      | js_location_href => EmptyString
      | js_click_first_result => false
      | js_potential_ids _ => []
      | js_find_search_input => EmptyString
      | js_video_count => 0%Z
      end
  | _ => tt
  end.

Definition no_soup : soup := Soup [] [] [] (fun _ => []).

Definition env_with (answer : list event -> forall c : call, exn + result c)
    (parse : string -> soup) : Env :=
  {| reply := answer;
     page_url := fun _ => home;
     parse_html := parse;
     now := Datetime 2026 11 3 9 5 0 0 |}.

(** No browser can be started. *)
Definition env_no_browser : Env :=
  env_with (fun _ _ => inl (Exn Error "Executable doesn't exist")) (fun _ => no_soup).

(** Every call succeeds and finds nothing. *)
Definition env_blank : Env := env_with (fun _ c => inr (nothing c)) (fun _ => no_soup).




(** Every call on the page finds three videos. *)
Definition env_three_videos : Env :=
  env_with (fun _ c =>
              match c as c' return exn + result c' with
              | page_evaluate s =>
                  match s as s' return exn + js_result s' with
                  | js_video_count => inr 3%Z
                  | s' => inr (nothing (page_evaluate s'))
                  end
              | c' => inr (nothing c')
              end)
           (fun _ => no_soup).


(** The search is submitted and a result clicked, but the URL never changes. *)
Definition env_unchanged : Env :=
  env_with (fun _ c =>
              match c as c' return exn + result c' with
              | page_query_selector _ => inr true
              | page_evaluate s =>
                  match s as s' return exn + js_result s' with
                  | js_location_href => inr home
                  | js_click_first_result => inr true
                  | s' => inr (nothing (page_evaluate s'))
                  end
              | c' => inr (nothing c')
              end)
           (fun _ => no_soup).

(** The search leads to the page of an advertiser, which shows three videos. *)
Definition env_found : Env :=
  env_with (fun _ c =>
              match c as c' return exn + result c' with
              | page_query_selector _ => inr true
              | page_evaluate s =>
                  match s as s' return exn + js_result s' with
                  | js_location_href => inr (home +:+ "advertiser/AR123?region=US")
                  | js_video_count => inr 3%Z
                  | s' => inr (nothing (page_evaluate s'))
                  end
              | c' => inr (nothing c')
              end)
           (fun _ => no_soup).

(** A page whose placeholder span leads to one input while another input has
    the class [search]. *)
Definition soup_two_inputs : soup :=
  Soup [Some "<input id=q/>"] ["<input class=search/>"] [] (fun _ => []).

(** ** Predicates and derived states *)

Definition adidas_id : string := "AR14017378248766259201".

(** What [finally: if browser: await browser.close()] does in a state. *)
Definition closing (st : State) : exn + unit :=
  if browser_var st then reply (env st) (trace st) browser_close else inr tt.

(** The state after the [finally] suite. *)
Definition closed (st : State) : State :=
  if browser_var st
  then with_trace (Event browser_close None
                     (match reply (env st) (trace st) browser_close with
                      | inl _ => true
                      | inr _ => false
                      end) :: trace st) st
  else st.

(** The state in which the session of [get_advertiser_id] starts. *)
Definition search_start (advertiser_name : string) (st : State) : State :=
  with_browser false
    (logging INFO ("Searching for advertiser ID for: " +:+ advertiser_name) st).

(** The state in which the session of [check_advertiser_videos] starts. *)
Definition videos_start (advertiser_id : string) (st : State) : State :=
  with_browser false
    (logging INFO ("Checking for videos for advertiser ID: " +:+ advertiser_id) st).

(** [e] left the function because [browser.close()], its last call, raised it. *)
Definition raised_by_close (e : exn) (st : State) : Prop :=
  exists tr, trace st = Event browser_close None true :: tr
             /\ reply (env st) tr browser_close = inl e.



(** *** What a body can end with

    [ends QR QA m]: when [m] returns [r] then [QR r]; when it ends normally
    with [a] then [QA a].  Nothing is said about the exceptions it raises. *)

Definition ends {R} (QR : R -> Prop) {A} (QA : A -> Prop) (m : M R A) : Prop :=
  forall st,
    match fst (m st) with
    | Next a => QA a
    | Returned r => QR r
    | Raised _ => True
    end.

(** What a coroutine gives back when it does not raise. *)
Definition gives {A} (Q : A -> Prop) (f : fn A) : Prop :=
  forall st, match fst (f st) with inr a => Q a | inl _ => True end.


(** What [except Exception as e] of the endpoint does with [e] (main.py 117-124). *)
Definition scrape_failed (e : exn) (st : State) : (exn + AdvertiserResponse) * State :=
  (inl (Exn (HTTPException 500) ("Error during scraping: " +:+ str_exn e)),
   with_log ((ERROR, Traceback e)
             :: (ERROR, Text ("Error during scraping: " +:+ str_exn e)) :: log st) st).

Definition not_found (advertiser_name : string) : exn :=
  Exn (HTTPException 404) ("No advertiser ID found for " +:+ PyStr.quote advertiser_name).

(** ** Counting calls

    [within J p k m]: run in a state whose two default timeouts satisfy [J],
    [m] ends in such a state and adds at most [k] events that satisfy [p] to
    the trace, however it ends. *)

Definition count (p : event -> bool) (tr : list event) : nat :=
  List.length (List.filter p tr).

Definition timeouts (J : Z -> option Z -> Prop) (st : State) : Prop :=
  J (default_timeout st) (default_navigation_timeout st).

Definition within (J : Z -> option Z -> Prop) (p : event -> bool) (k : nat)
    {R A} (m : M R A) : Prop :=
  forall st, timeouts J st ->
    timeouts J (snd (m st))
    /\ (count p (trace (snd (m st))) <= count p (trace st) + k)%nat.

Definition within_fn (J : Z -> option Z -> Prop) (p : event -> bool) (k : nat)
    {A} (f : fn A) : Prop :=
  forall st, timeouts J st ->
    timeouts J (snd (f st))
    /\ (count p (trace (snd (f st))) <= count p (trace st) + k)%nat.

(** An event of a call that satisfies [f]. *)
Definition calls (f : call -> bool) (ev : event) : bool := f (ev_call ev).

(** The probe of the current URL, [page.evaluate("window.location.href")]. *)
Definition url_probe : event -> bool :=
  calls (fun c => match c with page_evaluate js_location_href => true | _ => false end).

Definition selector_query : event -> bool :=
  calls (fun c => match c with page_query_selector _ => true | _ => false end).

Definition click_script : event -> bool :=
  calls (fun c => match c with page_evaluate js_click_first_result => true | _ => false end).

Definition content_scan : event -> bool :=
  calls (fun c => match c with page_content => true | _ => false end).

Definition ids_script : event -> bool :=
  calls (fun c => match c with page_evaluate (js_potential_ids _) => true | _ => false end).

Definition navigation : event -> bool :=
  calls (fun c => match c with page_goto _ _ _ => true | _ => false end).

Definition any_timeouts : Z -> option Z -> Prop := fun _ _ => True.

(** ** The search for the search box *)

(** What each approach on the parsed page produces on its own, in the order of
    the code: placeholder text, class list, role list, container text. *)
Definition heuristics : list (soup -> string) :=
  [ fun sp => by_placeholder sp EmptyString;
    fun sp => by_class sp EmptyString;
    fun sp => by_role sp EmptyString;
    fun sp => by_container_text sp EmptyString ].

(** The last resort: the script in the page, then the fixed answer. *)
Definition by_script {R} : M R string :=
  search_input_js <- await (page_evaluate js_find_search_input);;
  if PyStr.truthy search_input_js then ret search_input_js
  else (await (page_screenshot "search_input_not_found.png");;
        ret "No search input found").

(** The order as the specification words it: the selector lists (class, role)
    first, then the textual matches (placeholder, container text), then the
    script. *)
Definition heuristics_as_stated : list (soup -> string) :=
  [ fun sp => by_class sp EmptyString;
    fun sp => by_role sp EmptyString;
    fun sp => by_placeholder sp EmptyString;
    fun sp => by_container_text sp EmptyString ].

(** ** Timeouts *)








(** ** What the coroutines give back *)

(** What [check_advertiser_videos] can give: no count and the flag down, or a
    count with the flag that says whether it is above zero. *)
Definition flag_is_count_above_zero (r : bool * option Z) : Prop :=
  match snd r with
  | None => fst r = false
  | Some n => fst r = (0 <? n)%Z
  end.

(** An ID as the endpoint tests it with [if not advertiser_id]: [None] or a
    string that is not empty. *)
Definition none_or_nonempty (r : option string) : Prop := r <> Some EmptyString.

Definition has_search_input (r : page_content_dict) : Prop :=
  search_input r <> EmptyString.

(** ** The scan of the page content *)

(** Every call succeeds and finds nothing, but the page has the content
    [html]. *)
Definition env_page (html : string) : Env :=
  env_with (fun _ c =>
              match c as c' return exn + result c' with
              | page_content => inr html
              | c' => inr (nothing c')
              end)
           (fun _ => no_soup).

(** Method 1 of [extract_advertiser_id_from_content] (main.py 389-405):
    [all_matches[0]] when there is one. *)
Definition method_1 (content : string) : option string :=
  match List.filter PyStr.truthy (Re.findall_alt re_ar re_advertiser 0 content) with
  | advertiser_id :: _ => Some advertiser_id
  | [] => None
  end.

(** The first screenshot of [extract_advertiser_id_from_content], and the
    trace after it and after the page content was read, when both calls
    succeed. *)
Definition content_shot : call := page_screenshot "screenshots/page_content.png".

Definition content_shot_taken (st : State) : list event :=
  Event content_shot (Some (default_timeout st)) false :: trace st.

Definition content_read (st : State) : list event :=
  Event page_content None false :: content_shot_taken st.

(** The first [k] characters of [s] differ from [c]. *)
Fixpoint none_within (c : ascii) (k : nat) (s : string) : Prop :=
  match k, s with
  | S k', String c' s' => c' <> c /\ none_within c k' s'
  | _, _ => True
  end.

(** ** Sessions *)

(** [st'] continues [st]: the environment and the variable [browser] are the
    same, and the trace of [st] is extended by the events [new]. *)
Definition continues (new : list event) (st st' : State) : Prop :=
  env st' = env st /\ browser_var st' = browser_var st
  /\ trace st' = (new ++ trace st)%list.

(** However [m] ends, the state it leaves continues the one it started in. *)
Definition keeps {R A} (m : M R A) : Prop :=
  forall st, exists new, continues new st (snd (m st)).

Definition closes : event -> bool :=
  calls (fun c => match c with browser_close => true | _ => false end).

Definition playwright_stops : event -> bool :=
  calls (fun c => match c with async_playwright_stop => true | _ => false end).

(** A browser was launched among the events. *)
Definition launched (tr : list event) : bool :=
  existsb (fun ev => match ev_call ev with
                     | chromium_launch => negb (ev_raised ev)
                     | _ => false
                     end) tr.

(** A page was created among the events. *)
Definition page_created (tr : list event) : bool :=
  existsb (fun ev => match ev_call ev with
                     | new_page => negb (ev_raised ev)
                     | _ => false
                     end) tr.

(** Between [st] and [st'] a browser was launched or not; when it was,
    [browser.close()] is the last call and the only one of its kind; when it
    was not, [browser.close()] is not called. *)
Definition closes_what_it_launched (st st' : State) : Prop :=
  exists new,
    trace st' = (new ++ trace st)%list /\
    ((launched new = false /\ count closes new = 0%nat)
     \/ exists raised before,
          new = Event browser_close None raised :: before
          /\ launched before = true /\ count closes before = 0%nat).

(** The state [st1] in which a session that started in [st] ends, before the
    [finally] suite: no [browser.close()] yet, and [browser] is set exactly
    when a browser was launched. *)
Definition session_state (st st1 : State) : Prop :=
  exists new,
    env st1 = env st /\ trace st1 = (new ++ trace st)%list
    /\ count closes new = 0%nat /\ browser_var st1 = launched new.

(** What a function adds to the trace holds no event that satisfies [p]. *)
Definition adds_no {A} (p : event -> bool) (f : fn A) : Prop :=
  forall st, exists new,
    trace (snd (f st)) = (new ++ trace st)%list /\ count p new = 0%nat.

Definition succeeds {A} (r : exn + A) : bool :=
  match r with inr _ => true | inl _ => false end.

(** The suite of [async with async_playwright() as p] in [get_page_content]
    (main.py 504-649). *)
Definition page_session (nav wait : Z) : M page_content_dict page_content_dict :=
  await chromium_launch;;
  browser_new_context 1280 800;;
  await new_page;;
  set_default_navigation_timeout nav;;
  set_default_timeout wait;;
  read_page_guarded.

(** The browser is closed, as the last call, exactly when a page was
    created. *)
Definition closed_if_page_created (before : list event) : Prop :=
  if page_created before
  then exists raised work,
         before = Event browser_close None raised :: work /\ count closes work = 0%nat
  else count closes before = 0%nat.

(** The page [check_advertiser_videos] opens (main.py 795). *)
Definition video_url (advertiser_id : string) : string :=
  home +:+ "advertiser/" +:+ advertiser_id +:+ "?region=US&format=VIDEO".

(** A navigation to a URL that is not [allowed]. *)
Definition navigates_away_from (allowed : string) (ev : event) : bool :=
  match ev_call ev with
  | page_goto url _ _ => negb (String.eqb url allowed)
  | _ => false
  end.

(** ** Which failures end a session *)







(** [e] is what the environment answered to a call that satisfies [p] and is
    on the trace as raised. *)
Definition raised_by (p : call -> bool) (e : exn) (st : State) : Prop :=
  exists c t after before,
    trace st = (after ++ Event c t true :: before)%list
    /\ p c = true /\ reply (env st) before c = inl e.

(** The calls that set a session up and tear it down. *)
Definition session_call (c : call) : bool := negb (is_page_op c).

(** ** The plain functions *)

(** The request [extract_text_from_images] sends for an image. *)
Definition image_request (url : string) : Requests.request :=
  Requests.Request url windows_user_agent (Some 10%Z).

(** The request [scrape_advertiser_page] sends. *)
Definition page_request (advertiser_id : string) : Requests.request :=
  Requests.Request ("https://adstransparency.google.com/advertiser/" +:+ advertiser_id
                    +:+ "?region=US")
                   windows_user_agent None.

(** [s] is made of words separated by single spaces, each word of word
    characters that [str.lower] leaves as they are.  [after_space] says that
    a word has to start here: at the beginning and after a space. *)
Fixpoint words_from (after_space : bool) (s : string) : bool :=
  match s with
  | EmptyString => negb after_space
  | String c s' =>
      if Ascii.eqb c " " then negb after_space && words_from true s'
      else word_char c && Ascii.eqb (PyStr.lower_char c) c && words_from false s'
  end.

Definition normalised (s : string) : bool := words_from true s.

(** As [words_from], but the string may end after a space. *)
Fixpoint spaced (after_space : bool) (s : string) : bool :=
  match s with
  | EmptyString => true
  | String c s' =>
      if Ascii.eqb c " " then negb after_space && spaced true s'
      else word_char c && Ascii.eqb (PyStr.lower_char c) c && spaced false s'
  end.

Fixpoint has_word_char (s : string) : bool :=
  match s with
  | EmptyString => false
  | String c s' => word_char c || has_word_char s'
  end.

(** * Properties *)

(** ** The model at work *)

Example url_path :
  fst (extract_advertiser_id_from_url
         "https://adstransparency.google.com/advertiser/AR14017378248766259201?region=US"
         (initial env_blank))
  = inr (Some "AR14017378248766259201").
Proof. reflexivity. Qed.

Example url_path_before_ar :
  fst (extract_advertiser_id_from_url "https://x/AR12/advertiser/ZZ9?id=Q"
         (initial env_blank))
  = inr (Some "ZZ9").
Proof. reflexivity. Qed.

Example url_ar :
  fst (extract_advertiser_id_from_url "https://x/?q=AR77&id=B2" (initial env_blank))
  = inr (Some "AR77").
Proof. reflexivity. Qed.

Example url_id :
  fst (extract_advertiser_id_from_url "https://x/?a=1&id=B2c" (initial env_blank))
  = inr (Some "B2").
Proof. reflexivity. Qed.

Example url_none :
  fst (extract_advertiser_id_from_url "https://x/advertiser/?id=" (initial env_blank))
  = inr None.
Proof. reflexivity. Qed.

Example scrape_found :
  fst (app {| method := POST; path := "/scrape";
              json := Some {| advertiser_name := " Nike " |} |}
           (initial env_found))
  = {| status_code := 200;
       body := advertiser_body {| advertiser_google_id := Some "AR123";
                                  has_videos := Some true;
                                  video_count := Some 3%Z |} |}.
Proof. vm_compute. reflexivity. Qed.

Example scrape_empty_name :
  fst (app {| method := POST; path := "/scrape";
              json := Some {| advertiser_name := "  " |} |}
           (initial env_found))
  = {| status_code := 400; body := detail_body "Advertiser name cannot be empty" |}.
Proof. vm_compute. reflexivity. Qed.

Example strip_lower : PyStr.lower (PyStr.strip "  AdiDas ") = "adidas".
Proof. reflexivity. Qed.

Example splitlines_ex :
  PyStr.splitlines ("ab" +:+ String "013" (String "010" ("c" +:+ String "010" (String "010" "d"))))
  = ["ab"; "c"; ""; "d"].
Proof. reflexivity. Qed.

Example int_ex : PyStr.int " 60_000 " = Some 60000%Z /\ PyStr.int "-5" = Some (-5)%Z
                 /\ PyStr.int "6e4" = None /\ PyStr.int "" = None /\ PyStr.int "1__0" = None.
Proof. repeat split; reflexivity. Qed.

Example findall_ex :
  Re.findall_alt re_ar re_advertiser 0 "x AR12 /advertiser/AR34Z advertiser/ AR5"
  = [""; "AR34Z"; ""].
Proof. reflexivity. Qed.

Example isoformat_ex :
  isoformat (Datetime 2026 11 3 9 5 0 0) = "2026-11-03T09:05:00"
  /\ isoformat (Datetime 2026 11 3 9 5 0 1200) = "2026-11-03T09:05:00.001200".
Proof. split; reflexivity. Qed.

(** ** What [re.search] finds *)

Module ReFacts.
Import Re ReSpec.

Lemma append_cons c s t : String c s +:+ t = String c (s +:+ t).
Proof. reflexivity. Qed.

Lemma append_empty t : EmptyString +:+ t = t.
Proof. reflexivity. Qed.

Lemma match_prefix_sound ats : forall s m rest,
  match_prefix ats s = Some (m, rest) -> s = m +:+ rest /\ atoms_match ats m.
Proof.
  induction ats as [|a ats IH]; intros s m rest H; simpl in H.
  - inversion H; subst. split; [reflexivity | exact I].
  - destruct s as [|c s]; [discriminate|].
    destruct (atom_matches a c) eqn:Ha; [|discriminate].
    destruct (match_prefix ats s) as [[m' rest']|] eqn:Hm; [|discriminate].
    inversion H; subst. destruct (IH _ _ _ Hm) as [-> Hats].
    split; [reflexivity | split; assumption].
Qed.

Lemma match_prefix_complete ats : forall m rest,
  atoms_match ats m -> match_prefix ats (m +:+ rest) = Some (m, rest).
Proof.
  induction ats as [|a ats IH]; intros m rest H; destruct m as [|c m]; simpl in *;
    try contradiction; [reflexivity|].
  destruct H as [Ha Hm]. rewrite Ha, (IH _ _ Hm). reflexivity.
Qed.

Lemma run_decompose p s :
  exists after, s = run p s +:+ after /\ all_in p (run p s) /\ stops p after.
Proof.
  induction s as [|c s IH]; simpl.
  - exists EmptyString. repeat split.
  - destruct (p c) eqn:Hc.
    + destruct IH as (after & Hs & Hall & Hstop). exists after. simpl.
      split; [rewrite append_cons; f_equal; exact Hs | split; [split; assumption | assumption]].
    + exists (String c s). repeat split. exact Hc.
Qed.

Lemma run_unique p r : forall after,
  all_in p r -> stops p after -> run p (r +:+ after) = r.
Proof.
  induction r as [|c r IH]; intros after Hall Hstop; simpl in *.
  - destruct after as [|c after]; simpl in *; [reflexivity | now rewrite Hstop].
  - destruct Hall as [-> Hall]. now rewrite IH.
Qed.

Lemma match_here_occurs p s m r :
  match_here p s = Some (m, r) <-> occurs_at p s 0 m r.
Proof.
  unfold match_here, occurs_at. split.
  - destruct (match_prefix (prefix p) s) as [[m' rest]|] eqn:Hm; [|discriminate].
    destruct (match_prefix_sound _ _ _ _ Hm) as [-> Hats].
    destruct (run_decompose (cls p) rest) as (after & Hrest & Hall & Hstop).
    destruct (run (cls p) rest) as [|c r'] eqn:Hr; [discriminate|].
    intros H; inversion H; subst m' r. clear H.
    exists EmptyString, after. rewrite append_empty, <- Hrest.
    split; [reflexivity | split; [reflexivity|]].
    split; [assumption | split; [discriminate | split; assumption]].
  - intros (before & after & -> & Hlen & Hats & Hne & Hall & Hstop).
    destruct before; [|discriminate]. rewrite append_empty.
    rewrite (match_prefix_complete _ _ _ Hats), (run_unique _ _ _ Hall Hstop).
    destruct r; [congruence | reflexivity].
Qed.










(** The group of a first occurrence is not empty. *)
Lemma first_occurrence_group p s i m r :
  first_occurrence p s i m r -> r <> EmptyString.
Proof. intros [(before & after & _ & _ & _ & Hne & _) _]. exact Hne. Qed.

End ReFacts.

Import ReSpec ReFacts.

Lemma lits_match (s m : string) : atoms_match (Re.lits s) m <-> m = s.
Proof.
  unfold Re.lits. revert m. induction s as [|c s IH]; intros [|c' m]; simpl;
    try (split; [contradiction | discriminate]); [tauto|].
  rewrite IH, Ascii.eqb_eq. split.
  - intros [-> ->]. reflexivity.
  - intros H; inversion H; auto.
Qed.

Lemma id_param_match (m : string) :
  atoms_match (Re.prefix re_id_param) m -> m = "?id=" \/ m = "&id=".
Proof.
  destruct m as [|c m]; [contradiction|]. cbn [re_id_param Re.prefix atoms_match].
  intros [Hc Hm]. apply (lits_match "id=") in Hm as ->.
  cbn [Re.atom_matches existsb] in Hc. rewrite orb_false_r in Hc.
  apply orb_true_iff in Hc as [Hc|Hc]; apply Ascii.eqb_eq in Hc; subst; auto.
Qed.




(** ** The hard-coded advertiser *)

Lemma get_advertiser_id_known (advertiser_name advertiser_id : string) (st : State) :
  known_ids !! PyStr.lower advertiser_name = Some advertiser_id ->
  get_advertiser_id advertiser_name st =
    (inr (Some advertiser_id),
     logging INFO ("Using known advertiser ID for " +:+ advertiser_name
                   +:+ ": " +:+ advertiser_id)
       (logging INFO ("Searching for advertiser ID for: " +:+ advertiser_name) st)).
Proof.
  intros H. unfold get_advertiser_id, def, bind, logging_info, modify, return_.
  rewrite H. reflexivity.
Qed.

Lemma check_advertiser_videos_known (advertiser_id : string) (n : Z) (st : State) :
  known_video_counts !! advertiser_id = Some n ->
  check_advertiser_videos advertiser_id st =
    (inr (true, Some n),
     logging INFO ("Using known video count for " +:+ advertiser_id
                   +:+ ": " +:+ str_Z n)
       (logging INFO ("Checking for videos for advertiser ID: " +:+ advertiser_id) st)).
Proof.
  intros H. unfold check_advertiser_videos, def, bind, logging_info, modify, return_.
  rewrite H. reflexivity.
Qed.

(** C1.  A POST /scrape whose advertiser name, stripped and lowercased, is
    "adidas" is answered with status 200 and the body
    advertiser_google_id = "AR14017378248766259201", has_videos = true,
    video_count = 34; both values come from the two tables and no call to the
    browser is made (the trace is unchanged). *)
Theorem scrape_adidas (request : AdvertiserRequest) (st : State) :
  PyStr.lower (PyStr.strip (advertiser_name request)) = "adidas" ->
  let answer := app {| method := POST; path := "/scrape"; json := Some request |} st in
  fst answer =
    {| status_code := 200;
       body := advertiser_body
                 {| advertiser_google_id := known_ids !! "adidas";
                    has_videos := Some true;
                    video_count := known_video_counts !! adidas_id |} |}
  /\ known_ids !! "adidas" = Some "AR14017378248766259201"
  /\ known_video_counts !! adidas_id = Some 34%Z
  /\ trace (snd answer) = trace st.
Proof.
  intros H answer. subst answer.
  assert (Hid : known_ids !! PyStr.lower (PyStr.strip (advertiser_name request))
                = Some adidas_id) by (rewrite H; reflexivity).
  assert (Hn : known_video_counts !! adidas_id = Some 34%Z) by reflexivity.
  assert (Hne : PyStr.truthy (PyStr.strip (advertiser_name request)) = true).
  { destruct (PyStr.strip (advertiser_name request)); [discriminate H | reflexivity]. }
  unfold app. change (find_route POST "/scrape") with (Some scrape_endpoint).
  cbn [json method path]. unfold scrape_advertiser_endpoint, def.
  rewrite Hne. change (negb true) with false.
  unfold try_except, bind, invoke. cbv beta iota.
  rewrite (get_advertiser_id_known _ _ _ Hid).
  change adidas_id with "AR14017378248766259201" at 1. cbv beta iota.
  rewrite (check_advertiser_videos_known _ _ _ Hn).
  repeat split.
Qed.

(** A request the theorem applies to. *)
Lemma scrape_adidas_witness :
  PyStr.lower (PyStr.strip " Adidas ") = "adidas"
  /\ fst (app {| method := POST; path := "/scrape";
                 json := Some {| advertiser_name := " Adidas " |} |}
              (initial env_no_browser))
     = {| status_code := 200;
          body := advertiser_body
                    {| advertiser_google_id := known_ids !! "adidas";
                       has_videos := Some true;
                       video_count := known_video_counts !! adidas_id |} |}.
Proof.
  split; [reflexivity|].
  apply (scrape_adidas {| advertiser_name := " Adidas " |} (initial env_no_browser)).
  reflexivity.
Defined.


(** ** The routes *)

Lemma ping_ok (st : State) :
  ping st = (inr {| status := "ok"; timestamp := isoformat (now (env st));
                    version := "1.0.0" |}, st).
Proof. reflexivity. Qed.


(** ** Exceptions and where they end *)

Lemma try_except_Exception {R A} (body : M R A) (handler : exn -> M R A) (st : State) :
  try_except body except_Exception handler st =
  match body st with
  | (Raised e, st') => handler e st'
  | r => r
  end.
Proof.
  unfold try_except. destruct (body st) as [[a|r|e] st']; reflexivity.
Qed.

Lemma close_browser_run {R} (st : State) :
  @close_browser R st =
  (match closing st with inl e => Raised e | inr _ => Next tt end, closed st).
Proof.
  unfold close_browser, closing, closed, bind, get, await.
  destruct (browser_var st); [|reflexivity].
  cbn [effective_timeout timing_of].
  destruct (reply (env st) (trace st) browser_close) as [e|[]]; reflexivity.
Qed.

(** A [try] whose handler returns, followed by the [finally] that closes the
    browser: the handler's value when the suite raised, the suite's own end
    otherwise, unless closing raises. *)
Lemma guarded_session {R A} (session : M R A) (handler : exn -> M R A) (st : State) :
  try_finally (try_except session except_Exception handler) close_browser st =
  let (o, st1) := match session st with
                  | (Raised e, st') => handler e st'
                  | r => r
                  end in
  (match closing st1 with inl e => Raised e | inr _ => o end, closed st1).
Proof.
  unfold try_finally. rewrite try_except_Exception.
  destruct (match session st with (Raised e, st') => handler e st' | r => r end) as [o st1].
  rewrite close_browser_run. destruct (closing st1); reflexivity.
Qed.

Lemma search_failed_run {A} (e : exn) (st : State) :
  @search_failed A e st =
  (Returned None,
   with_log ((ERROR, Traceback e)
             :: (ERROR, Text ("Error in get_advertiser_id: " +:+ str_exn e)) :: log st) st).
Proof. reflexivity. Qed.

Lemma videos_failed_run {A} (e : exn) (st : State) :
  @videos_failed A e st =
  (Returned (false, None),
   with_log ((ERROR, Traceback e)
             :: (ERROR, Text ("Error checking for videos: " +:+ str_exn e)) :: log st) st).
Proof. reflexivity. Qed.

Lemma get_advertiser_id_unknown (advertiser_name : string) (st : State) :
  known_ids !! PyStr.lower advertiser_name = None ->
  get_advertiser_id advertiser_name st =
  let (o, st1) :=
    match search_session advertiser_name (search_start advertiser_name st) with
    | (Raised e, st') => search_failed e st'
    | r => r
    end in
  (match closing st1 with
   | inl e => inl e
   | inr _ => match o with Next r | Returned r => inr r | Raised e => inl e end
   end, closed st1).
Proof.
  intros H. unfold get_advertiser_id, def, bind at 1, logging_info, modify at 1.
  rewrite H. unfold search_advertiser_id, bind, modify. rewrite guarded_session.
  fold (search_start advertiser_name st).
  destruct (match search_session advertiser_name (search_start advertiser_name st) with
            | (Raised e, st') => search_failed e st' | r => r end) as [o st1].
  destruct (closing st1); [reflexivity|]. destruct o; reflexivity.
Qed.

Lemma check_advertiser_videos_unknown (advertiser_id : string) (st : State) :
  known_video_counts !! advertiser_id = None ->
  check_advertiser_videos advertiser_id st =
  let (o, st1) :=
    match video_session advertiser_id (videos_start advertiser_id st) with
    | (Raised e, st') => videos_failed e st'
    | r => r
    end in
  (match closing st1 with
   | inl e => inl e
   | inr _ => match o with Next r | Returned r => inr r | Raised e => inl e end
   end, closed st1).
Proof.
  intros H. unfold check_advertiser_videos, def, bind at 1, logging_info, modify at 1.
  rewrite H. unfold count_videos, bind, modify. rewrite guarded_session.
  fold (videos_start advertiser_id st).
  destruct (match video_session advertiser_id (videos_start advertiser_id st) with
            | (Raised e, st') => videos_failed e st' | r => r end) as [o st1].
  destruct (closing st1); [reflexivity|]. destruct o; reflexivity.
Qed.






(** *** What a body can end with *)

Section Ends.
Context {R : Type} (QR : R -> Prop).

Lemma ends_ret {A} (QA : A -> Prop) (a : A) : QA a -> ends QR QA (ret a).
Proof. intros H st. exact H. Qed.

Lemma ends_return {A} (QA : A -> Prop) (r : R) : QR r -> ends QR QA (return_ r).
Proof. intros H st. exact H. Qed.

Lemma ends_raise {A} (QA : A -> Prop) (e : exn) : ends QR QA (raise e).
Proof. intros st. exact I. Qed.

Lemma ends_modify (f : State -> State) : ends QR (fun _ => True) (modify f).
Proof. intros st. exact I. Qed.

Lemma ends_await (c : call) : ends QR (fun _ => True) (await c).
Proof.
  intros st. unfold await. destruct (reply (env st) (trace st) c); exact I.
Qed.

Lemma ends_bind {A B} (QA : A -> Prop) (QB : B -> Prop) (m : M R A) (k : A -> M R B) :
  ends QR QA m -> (forall a, QA a -> ends QR QB (k a)) -> ends QR QB (bind m k).
Proof.
  intros Hm Hk st. unfold bind. specialize (Hm st).
  destruct (m st) as [[a|r|e] st']; simpl in *; [|exact Hm|exact I].
  apply (Hk a Hm st').
Qed.

Lemma ends_try_except {A} (QA : A -> Prop) (body : M R A) catches handler :
  ends QR QA body -> (forall e, ends QR QA (handler e)) ->
  ends QR QA (try_except body catches handler).
Proof.
  intros Hb Hh st. unfold try_except. specialize (Hb st).
  destruct (body st) as [[a|r|e] st']; simpl in *; try exact Hb.
  destruct (catches e); [apply Hh | exact I].
Qed.

Lemma ends_try_finally {A} (QA : A -> Prop) (body : M R A) (final : M R unit) :
  ends QR QA body -> ends QR (fun _ => True) final -> ends QR QA (try_finally body final).
Proof.
  intros Hb Hf st. unfold try_finally. specialize (Hb st).
  destruct (body st) as [o st']. specialize (Hf st').
  destruct (final st') as [[[]|r|e] st'']; simpl in *; assumption.
Qed.


End Ends.

Lemma gives_def {R} (Q : R -> Prop) (body : M R R) : ends Q Q body -> gives Q (def body).
Proof.
  intros H st. unfold def. specialize (H st).
  destruct (body st) as [[a|r|e] st']; simpl in *; assumption.
Qed.

(** ** [check_advertiser_videos]: the flag and the count *)







(** ** The endpoint and its handler *)

Lemma scrape_advertiser_endpoint_run (request : AdvertiserRequest) (st : State) :
  let name := PyStr.strip (advertiser_name request) in
  scrape_advertiser_endpoint request st =
  if PyStr.truthy name then
    match get_advertiser_id name st with
    | (inl e, st1) => scrape_failed e st1
    | (inr (Some (String c s)), st1) =>
        match check_advertiser_videos (String c s) st1 with
        | (inl e, st2) => scrape_failed e st2
        | (inr r, st2) =>
            (inr {| advertiser_google_id := Some (String c s);
                    has_videos := Some (fst r);
                    video_count := snd r |}, st2)
        end
    | (inr _, st1) => scrape_failed (not_found name) st1
    end
  else (inl (Exn (HTTPException 400) "Advertiser name cannot be empty"), st).
Proof.
  intros name. unfold scrape_advertiser_endpoint, def. fold name.
  destruct (PyStr.truthy name); [|reflexivity].
  change (negb true) with false. cbv iota.
  rewrite try_except_Exception. unfold bind at 1, invoke at 1.
  destruct (get_advertiser_id name st) as [[e|[[|c s]|]] st1]; try reflexivity.
  unfold bind, invoke.
  destruct (check_advertiser_videos (String c s) st1) as [[e|r] st2]; reflexivity.
Qed.

(** C4.  When the stripped advertiser name is not empty and
    [get_advertiser_id] gives [None], POST /scrape is answered with status 500,
    not 404: the [HTTPException] with status 404 raised for the missing ID is
    caught by the endpoint's own [except Exception] and raised again as a 500
    whose detail carries the text of the 404, "404: No advertiser ID found
    for '<name>'". *)
Theorem not_found_becomes_500 (request : AdvertiserRequest) (st st1 : State) :
  let name := PyStr.strip (advertiser_name request) in
  PyStr.truthy name = true ->
  get_advertiser_id name st = (inr None, st1) ->
  scrape_advertiser_endpoint request st = scrape_failed (not_found name) st1
  /\ exn_cls (not_found name) = HTTPException 404
  /\ fst (app {| method := POST; path := "/scrape"; json := Some request |} st)
     = {| status_code := 500;
          body := detail_body ("Error during scraping: 404: No advertiser ID found for '"
                               +:+ name +:+ "'") |}.
Proof.
  intros name Hname Hid.
  assert (E : scrape_advertiser_endpoint request st = scrape_failed (not_found name) st1).
  { rewrite scrape_advertiser_endpoint_run. fold name. now rewrite Hname, Hid. }
  split; [exact E | split; [reflexivity|]].
  unfold app. change (find_route POST "/scrape") with (Some scrape_endpoint).
  cbn [json]. rewrite E. reflexivity.
Qed.

(** A request for which no ID is found: no browser can be started. *)
Lemma not_found_becomes_500_witness :
  fst (app {| method := POST; path := "/scrape";
              json := Some {| advertiser_name := "nike" |} |}
           (initial env_no_browser))
  = {| status_code := 500;
       body := detail_body "Error during scraping: 404: No advertiser ID found for 'nike'" |}.
Proof.
  apply (not_found_becomes_500 {| advertiser_name := "nike" |} (initial env_no_browser)
           (snd (get_advertiser_id "nike" (initial env_no_browser)))).
  - reflexivity.
  - vm_compute. reflexivity.
Defined.

(** ** Which exceptions leave the coroutines *)







(** ** Counting calls *)

Section Within.
Context (J : Z -> option Z -> Prop) (p : event -> bool).

Lemma within_weaken {R A} (k k' : nat) (m : M R A) :
  within J p k m -> (k <= k')%nat -> within J p k' m.
Proof. intros H Hk st HJ. destruct (H st HJ) as [H1 H2]. split; [exact H1 | lia]. Qed.

Lemma within_ret {R A} (a : A) : within J p 0 (@ret R A a).
Proof. intros st HJ. split; [exact HJ | simpl; lia]. Qed.

Lemma within_return {R A} (r : R) : within J p 0 (@return_ R A r).
Proof. intros st HJ. split; [exact HJ | simpl; lia]. Qed.

Lemma within_raise {R A} (e : exn) : within J p 0 (@raise R A e).
Proof. intros st HJ. split; [exact HJ | simpl; lia]. Qed.

Lemma within_get {R A} (f : State -> A) : within J p 0 (@get R A f).
Proof. intros st HJ. split; [exact HJ | simpl; lia]. Qed.

Lemma within_modify {R} (f : State -> State) :
  (forall st, trace (f st) = trace st) ->
  (forall st, timeouts J st -> timeouts J (f st)) ->
  within J p 0 (@modify R f).
Proof. intros Ht HJf st HJ. simpl. rewrite Ht. split; [now apply HJf | lia]. Qed.

Lemma within_await {R} (c : call) : within J p 1 (@await R c).
Proof.
  intros st HJ. unfold await.
  destruct (reply (env st) (trace st) c); (split; [exact HJ|]); unfold count; simpl;
    destruct (p _); simpl; lia.
Qed.

Lemma within_await_free {R} (c : call) :
  (forall st b, timeouts J st -> p (Event c (effective_timeout st c) b) = false) ->
  within J p 0 (@await R c).
Proof.
  intros Hp st HJ. unfold await.
  destruct (reply (env st) (trace st) c); (split; [exact HJ|]); unfold count; simpl;
    rewrite (Hp st _ HJ); lia.
Qed.

Lemma within_bind {R A B} (k1 k2 : nat) (m : M R A) (f : A -> M R B) :
  within J p k1 m -> (forall a, within J p k2 (f a)) -> within J p (k1 + k2) (bind m f).
Proof.
  intros Hm Hf st HJ. unfold bind. destruct (Hm st HJ) as [H1 H2].
  destruct (m st) as [[a|r|e] st']; simpl in *; try (split; [exact H1 | lia]).
  destruct (Hf a st' H1) as [H3 H4]. split; [exact H3 | lia].
Qed.

Lemma within_try_except {R A} (k1 k2 : nat) (body : M R A) catches handler :
  within J p k1 body -> (forall e, within J p k2 (handler e)) ->
  within J p (k1 + k2) (try_except body catches handler).
Proof.
  intros Hb Hh st HJ. unfold try_except. destruct (Hb st HJ) as [H1 H2].
  destruct (body st) as [[a|r|e] st']; simpl in *; try (split; [exact H1 | lia]).
  destruct (catches e); [|split; [exact H1 | simpl; lia]].
  destruct (Hh e st' H1) as [H3 H4]. split; [exact H3 | lia].
Qed.

Lemma within_try_finally {R A} (k1 k2 : nat) (body : M R A) (final : M R unit) :
  within J p k1 body -> within J p k2 final -> within J p (k1 + k2) (try_finally body final).
Proof.
  intros Hb Hf st HJ. unfold try_finally. destruct (Hb st HJ) as [H1 H2].
  destruct (body st) as [o st']. simpl in *. destruct (Hf st' H1) as [H3 H4].
  destruct (final st') as [[[]|r|e] st'']; simpl in *; (split; [exact H3 | lia]).
Qed.

Lemma within_for {R X} (k : nat) (xs : list X) (body : X -> M R flow) :
  (forall x, within J p k (body x)) -> within J p (List.length xs * k) (for_ xs body).
Proof.
  intros Hb. induction xs as [|x xs IH]; [apply within_ret|].
  cbn [for_ List.length Nat.mul]. apply within_bind; [apply Hb|].
  intros [|]; [exact IH|]. eapply within_weaken; [apply within_ret | lia].
Qed.

Lemma within_if {R A} (k1 k2 : nat) (b : bool) (m1 m2 : M R A) :
  within J p k1 m1 -> within J p k2 m2 -> within J p (Nat.max k1 k2) (if b then m1 else m2).
Proof.
  intros H1 H2. destruct b; (eapply within_weaken; [eassumption | lia]).
Qed.

Lemma within_option {R A X} (k1 k2 : nat) (o : option X) (f : X -> M R A) (g : M R A) :
  (forall x, within J p k1 (f x)) -> within J p k2 g ->
  within J p (Nat.max k1 k2) (match o with Some x => f x | None => g end).
Proof.
  intros H1 H2. destruct o; (eapply within_weaken; [eauto | lia]).
Qed.

Lemma within_list {R A X} (k1 k2 : nat) (l : list X) (g : M R A) (f : X -> list X -> M R A) :
  within J p k1 g -> (forall x xs, within J p k2 (f x xs)) ->
  within J p (Nat.max k1 k2) (match l with [] => g | x :: xs => f x xs end).
Proof.
  intros H1 H2. destruct l; (eapply within_weaken; [eauto | lia]).
Qed.

Lemma within_flow {R A} (k1 k2 : nat) (f : flow) (m1 m2 : M R A) :
  within J p k1 m1 -> within J p k2 m2 ->
  within J p (Nat.max k1 k2) (match f with Continue => m1 | Break => m2 end).
Proof.
  intros H1 H2. destruct f; (eapply within_weaken; [eassumption | lia]).
Qed.

Lemma within_invoke_def {R A} (k : nat) (body : M A A) :
  within J p k body -> within J p k (@invoke R A (def body)).
Proof.
  intros H st HJ. unfold invoke, def. specialize (H st HJ).
  destruct (body st) as [[a|r|e] st']; exact H.
Qed.

Lemma within_def {A} (k : nat) (body : M A A) : within J p k body -> within_fn J p k (def body).
Proof.
  intros H st HJ. unfold def. specialize (H st HJ).
  destruct (body st) as [[a|r|e] st']; exact H.
Qed.

End Within.

(** Walk down a body, summing the bounds of its statements.  [side] proves
    that a call adds no event that is counted. *)
Ltac within_walk side :=
  lazymatch goal with
  | |- within _ _ _ (bind _ _) =>
      eapply within_bind; [within_walk side | intros ?; within_walk side]
  | |- within _ _ _ (ret _) => apply within_ret
  | |- within _ _ _ (return_ _) => apply within_return
  | |- within _ _ _ (raise _) => apply within_raise
  | |- within _ _ _ (get _) => apply within_get
  | |- within _ _ _ (await ?c) =>
      first [apply (within_await_free _ _ c); solve [side] | apply (within_await _ _ c)]
  | |- within _ _ _ (try_except _ _ _) =>
      eapply within_try_except; [within_walk side | intros ?; within_walk side]
  | |- within _ _ _ (try_finally _ _) =>
      eapply within_try_finally; [within_walk side | within_walk side]
  | |- within _ _ _ (for_ _ _) =>
      eapply within_for; intros ?; within_walk side
  | |- within _ _ _ (match _ with true => _ | false => _ end) =>
      eapply within_if; [within_walk side | within_walk side]
  | |- within _ _ _ (match _ with Some _ => _ | None => _ end) =>
      eapply within_option; [intros ?; within_walk side | within_walk side]
  | |- within _ _ _ (match _ with [] => _ | _ :: _ => _ end) =>
      eapply within_list; [within_walk side | intros ? ?; within_walk side]
  | |- within _ _ _ (match _ with Continue => _ | Break => _ end) =>
      eapply within_flow; [within_walk side | within_walk side]
  | |- within _ _ _ (invoke (def _)) =>
      eapply within_invoke_def; within_walk side
  | |- within _ _ _ (invoke ?f) =>
      let h := head_of f in unfold h; within_walk side
  | |- within _ _ _ (modify _) =>
      apply within_modify;
      [intros ?; reflexivity | intros ? HJ; first [exact HJ | exact I]]
  | |- within _ _ _ (let _ := _ in _) => cbv zeta; within_walk side
  | |- within _ _ _ ?m =>
      let h := head_of m in unfold h; within_walk side
  end
with head_of m :=
  lazymatch m with
  | ?f _ => head_of f
  | _ => m
  end.

(** ** How often a heuristic is attempted *)



Lemma get_advertiser_id_within (p : event -> bool) (k : nat) (name : string) :
  (forall n, within any_timeouts p k (search_advertiser_id n)) ->
  within_fn any_timeouts p k (get_advertiser_id name).
Proof.
  intros H. unfold get_advertiser_id. apply within_def.
  eapply within_weaken.
  - eapply within_bind; [within_walk ltac:(intros; reflexivity)|]. intros _.
    eapply within_option; [intros ?; within_walk ltac:(intros; reflexivity) | apply H].
  - vm_compute. lia.
Qed.


(** The bounds are reached. *)
Example attempts_reach_the_bounds :
  let tr := trace (snd (get_advertiser_id "nike" (initial env_unchanged))) in
  map (fun p => count p tr)
      [url_probe; navigation; content_scan; ids_script; selector_query; click_script]
  = [8; 2; 2; 2; 1; 1]%nat.
Proof. vm_compute. reflexivity. Qed.


(** ** The search for the search box *)

Lemma by_class_found sp c s : by_class sp (String c s) = String c s.
Proof. reflexivity. Qed.

Lemma by_role_found sp c s : by_role sp (String c s) = String c s.
Proof. reflexivity. Qed.

Lemma by_container_text_found sp c s : by_container_text sp (String c s) = String c s.
Proof. reflexivity. Qed.

Lemma find_search_input_found {R} sp c s (st : State) :
  by_container_text sp (by_role sp (by_class sp (by_placeholder sp EmptyString)))
  = String c s ->
  @find_search_input R sp st = (Next (String c s), st).
Proof. intros H. unfold find_search_input. rewrite H. reflexivity. Qed.

Lemma find_search_input_not_found {R} sp (st : State) :
  by_container_text sp (by_role sp (by_class sp (by_placeholder sp EmptyString)))
  = EmptyString ->
  @find_search_input R sp st = by_script st.
Proof.
  intros H. unfold find_search_input, by_script. rewrite H.
  cbn [PyStr.truthy negb]. unfold bind.
  destruct (await (page_evaluate js_find_search_input) st) as [[js|r|e] st']; try reflexivity.
  destruct js; reflexivity.
Qed.

(** C7, as the code has it.  The search box is looked for by a linear sequence
    of heuristics in the order: placeholder text, class list, role list,
    container text, script in the page.  The first of them to produce a result
    determines the outcome; the script is evaluated only when the four before
    it produced nothing, and before it no call is made to the browser. *)
Theorem search_box_cascade {R} (sp : soup) (st : State) :
  match List.find PyStr.truthy (map (fun h => h sp) heuristics) with
  | Some found => @find_search_input R sp st = (Next found, st)
  | None => @find_search_input R sp st = by_script st
  end.
Proof.
  unfold heuristics. cbn [map List.find].
  destruct (by_placeholder sp EmptyString) as [|c1 s1] eqn:E1; cbn [PyStr.truthy].
  2: { apply find_search_input_found. now rewrite E1. }
  destruct (by_class sp EmptyString) as [|c2 s2] eqn:E2; cbn [PyStr.truthy].
  2: { apply find_search_input_found. now rewrite E1, E2. }
  destruct (by_role sp EmptyString) as [|c3 s3] eqn:E3; cbn [PyStr.truthy].
  2: { apply find_search_input_found. now rewrite E1, E2, E3. }
  destruct (by_container_text sp EmptyString) as [|c4 s4] eqn:E4; cbn [PyStr.truthy].
  2: { apply find_search_input_found. now rewrite E1, E2, E3, E4. }
  apply find_search_input_not_found. now rewrite E1, E2, E3, E4.
Qed.

(** The claim fails on that page: the class list (a selector list) produces a
    result, and were it tried first that result would be the outcome; the
    outcome is the input found through the placeholder text. *)
Lemma selector_list_is_not_first :
  List.find PyStr.truthy (map (fun h => h soup_two_inputs) heuristics_as_stated)
  = Some "<input class=search/>"
  /\ fst (@find_search_input page_content_dict soup_two_inputs (initial env_blank))
     = Next "<input id=q/>"
  /\ fst (get_page_content 60000 30000
            (initial (env_with (fun _ c => inr (nothing c)) (fun _ => soup_two_inputs))))
     = inr {| dom_content := []; search_input := "<input id=q/>" |}.
Proof. repeat split; vm_compute; reflexivity. Qed.

(** ** Timeouts *)

Lemma count_zero (p : event -> bool) (tr : list event) :
  count p tr = 0%nat <-> forall ev, In ev tr -> p ev = false.
Proof.
  unfold count. induction tr as [|ev tr IH]; simpl.
  - split; [intros _ ? [] | reflexivity].
  - destruct (p ev) eqn:Hp; simpl.
    + split; [discriminate | intros H; specialize (H ev (or_introl eq_refl)); congruence].
    + rewrite IH. split.
      * intros H ev' [<-|Hin]; [exact Hp | now apply H].
      * intros H ev' Hin. apply H. now right.
Qed.

















(** The context default is what the page calls of a session run under. *)
Example context_defaults_in_force :
  In (Event (page_goto home (Some "networkidle") None) (Some 90000%Z) false)
     (trace (snd (get_advertiser_id "nike" (initial env_blank))))
  /\ In (Event (page_wait_for_load_state "domcontentloaded" None) (Some 60000%Z) false)
        (trace (snd (check_advertiser_videos "AR1" (initial env_blank)))).
Proof. split; vm_compute; tauto. Qed.


(** ** The endpoint's answers *)

Lemma lstrip_blank (s : string) : PyStr.lstrip s = EmptyString <-> all_in PyStr.isspace s.
Proof.
  induction s as [|c s IH]; simpl; [tauto|].
  destruct (PyStr.isspace c) eqn:Hc.
  - rewrite IH. tauto.
  - split; [discriminate | intros [H _]; discriminate].
Qed.

Lemma rstrip_blank (s : string) : PyStr.rstrip s = EmptyString <-> all_in PyStr.isspace s.
Proof.
  induction s as [|c s IH]; simpl; [tauto|].
  destruct (PyStr.rstrip s) as [|c' r] eqn:Hr.
  - destruct (PyStr.isspace c) eqn:Hc.
    + split; [intros _; split; [reflexivity | now apply IH] | reflexivity].
    + split; [discriminate | intros [H _]; discriminate].
  - split; [discriminate|]. intros [_ H]. apply IH in H. discriminate.
Qed.

Lemma lstrip_head (s : string) :
  match PyStr.lstrip s with
  | EmptyString => True
  | String c _ => PyStr.isspace c = false
  end.
Proof.
  induction s as [|c s IH]; simpl; [exact I|].
  destruct (PyStr.isspace c) eqn:Hc; [exact IH | exact Hc].
Qed.

Lemma strip_blank (s : string) : PyStr.strip s = EmptyString <-> all_in PyStr.isspace s.
Proof.
  unfold PyStr.strip. rewrite rstrip_blank, <- (lstrip_blank s).
  pose proof (lstrip_head s) as Hh.
  destruct (PyStr.lstrip s) as [|c r]; [simpl; tauto|].
  split; [|discriminate]. simpl. intros [Hc _]. congruence.
Qed.

Lemma truthy_empty (s : string) : PyStr.truthy s = false <-> s = EmptyString.
Proof. destruct s; simpl; split; congruence. Qed.

(** The statuses of POST /scrape. *)
Lemma scrape_status (request : AdvertiserRequest) (st : State) :
  let name := PyStr.strip (advertiser_name request) in
  let answer := app {| method := POST; path := "/scrape"; json := Some request |} st in
  if PyStr.truthy name
  then status_code (fst answer) = 200%Z \/ status_code (fst answer) = 500%Z
  else answer = ({| status_code := 400;
                    body := detail_body "Advertiser name cannot be empty" |}, st).
Proof.
  intros name answer. subst answer. unfold app.
  change (find_route POST "/scrape") with (Some scrape_endpoint). cbn [json].
  rewrite scrape_advertiser_endpoint_run. fold name.
  destruct (PyStr.truthy name); [|reflexivity].
  destruct (get_advertiser_id name st) as [[e|[[|c s]|]] st1]; try (right; reflexivity).
  destruct (check_advertiser_videos (String c s) st1) as [[e|r] st2];
    [right | left]; reflexivity.
Qed.

(** X1.  POST /scrape is answered with status 400 exactly when the advertiser
    name consists of whitespace only (the empty name included).  The answer
    is then "Advertiser name cannot be empty", and nothing else happens: no
    browser is started and no line is logged. *)
Theorem blank_name_is_rejected (request : AdvertiserRequest) (st : State) :
  let answer := app {| method := POST; path := "/scrape"; json := Some request |} st in
  (all_in PyStr.isspace (advertiser_name request) <-> status_code (fst answer) = 400%Z)
  /\ (status_code (fst answer) = 400%Z <->
      answer = ({| status_code := 400;
                   body := detail_body "Advertiser name cannot be empty" |}, st)).
Proof.
  intros answer. pose proof (scrape_status request st) as H. cbv zeta in H. fold answer in H.
  rewrite <- strip_blank, <- truthy_empty.
  destruct (PyStr.truthy (PyStr.strip (advertiser_name request))).
  - assert (N : status_code (fst answer) <> 400%Z) by (destruct H as [H|H]; rewrite H; discriminate).
    split; split; try discriminate; try (intros E; now destruct N).
    intros E. rewrite E in N. now destruct N.
  - rewrite H. split; split; reflexivity.
Qed.

(** ** What the coroutines give back *)

Section EndsMore.
Context {R : Type} (QR : R -> Prop).

Lemma ends_get {A} (f : State -> A) : ends QR (fun _ => True) (get f).
Proof. intros st. exact I. Qed.

Lemma ends_invoke {A} (f : fn A) : ends QR (fun _ => True) (invoke f).
Proof. intros st. unfold invoke. destruct (f st) as [[e|a] st']; exact I. Qed.

Lemma ends_for {X} (xs : list X) (body : X -> M R flow) :
  (forall x, ends QR (fun _ => True) (body x)) -> ends QR (fun _ => True) (for_ xs body).
Proof.
  intros Hb. induction xs as [|x xs IH]; [now apply ends_ret|].
  cbn [for_]. eapply ends_bind; [apply Hb|]. intros [|] _; [exact IH | now apply ends_ret].
Qed.

End EndsMore.

(** Walk down a whole body; [side] proves what a [return] gives, from the
    tests passed on the way. *)
Ltac ends_all side :=
  lazymatch goal with
  | |- ends _ _ (bind _ _) =>
      eapply (ends_bind _ (fun _ => True)); [ends_all side | intros ? _; ends_all side]
  | |- ends _ _ (ret _) => apply ends_ret; first [exact I | side]
  | |- ends _ _ (return_ _) => apply ends_return; side
  | |- ends _ _ (raise _) => apply ends_raise
  | |- ends _ _ (get _) => apply ends_get
  | |- ends _ _ (await ?c) => apply (ends_await _ c)
  | |- ends _ _ (modify _) => apply ends_modify
  | |- ends _ _ (invoke _) => apply ends_invoke
  | |- ends _ _ (try_except _ _ _) =>
      apply ends_try_except; [ends_all side | intros ?; ends_all side]
  | |- ends _ _ (try_finally _ _) =>
      apply ends_try_finally; [ends_all side | ends_all side]
  | |- ends _ _ (for_ _ _) => apply ends_for; intros ?; ends_all side
  | |- ends _ _ (match ?b with true => _ | false => _ end) =>
      destruct b eqn:?; ends_all side
  | |- ends _ _ (match ?o with Some _ => _ | None => _ end) =>
      destruct o eqn:?; ends_all side
  | |- ends _ _ (match ?f with Continue => _ | Break => _ end) =>
      destruct f; ends_all side
  | |- ends _ _ (let _ := _ in _) => cbv zeta; ends_all side
  | |- ends _ _ ?m => let h := head_of m in unfold h; ends_all side
  end.

Ltac nonempty_side :=
  unfold none_or_nonempty; intros E; subst; simpl in *; congruence.

Lemma get_advertiser_id_gives (name : string) :
  gives none_or_nonempty (get_advertiser_id name).
Proof.
  apply gives_def. eapply ends_bind; [apply ends_modify|]. intros _ _.
  destruct (known_ids !! PyStr.lower name) as [i|] eqn:Hk.
  - eapply ends_bind; [apply ends_modify|]. intros _ _. apply ends_return.
    unfold known_ids in Hk. apply lookup_singleton_Some in Hk as [_ <-]. discriminate.
  - ends_all nonempty_side.
Qed.

(** X2.  [get_advertiser_id] never gives the empty string: what it returns is
    [None] or an ID of at least one character. *)
Theorem advertiser_id_is_never_empty (name : string) (st st' : State) (id : string) :
  get_advertiser_id name st = (inr (Some id), st') -> id <> EmptyString.
Proof.
  intros H E. pose proof (get_advertiser_id_gives name st) as G.
  rewrite H in G. apply G. simpl. now rewrite E.
Qed.

Lemma advertiser_id_is_never_empty_witness :
  fst (get_advertiser_id "nike" (initial env_found)) = inr (Some "AR123")
  /\ "AR123" <> EmptyString.
Proof.
  split; [vm_compute; reflexivity|].
  apply (advertiser_id_is_never_empty "nike" (initial env_found)
           (snd (get_advertiser_id "nike" (initial env_found)))).
  vm_compute. reflexivity.
Defined.

Lemma count_videos_ends (id : string) :
  ends flag_is_count_above_zero flag_is_count_above_zero (count_videos id).
Proof. ends_all ltac:(reflexivity). Qed.

Lemma check_advertiser_videos_flag (id : string) :
  gives flag_is_count_above_zero (check_advertiser_videos id).
Proof.
  apply gives_def. eapply ends_bind; [apply ends_modify|]. intros _ _.
  destruct (known_video_counts !! id) as [n|] eqn:Hk.
  - eapply ends_bind; [apply ends_modify|]. intros _ _. apply ends_return.
    unfold known_video_counts in Hk. apply lookup_singleton_Some in Hk as [_ <-].
    reflexivity.
  - apply count_videos_ends.
Qed.

(** X3.  Whenever [check_advertiser_videos] returns a count, [has_videos] is
    [True] exactly when the count is above zero; whenever it returns no
    count, [has_videos] is [False]. *)
Theorem has_videos_iff_count_above_zero (id : string) (st st' : State)
    (has_videos : bool) (video_count : option Z) :
  check_advertiser_videos id st = (inr (has_videos, video_count), st') ->
  match video_count with
  | Some n => has_videos = true <-> (0 < n)%Z
  | None => has_videos = false
  end.
Proof.
  intros H. pose proof (check_advertiser_videos_flag id st) as G.
  rewrite H in G. unfold flag_is_count_above_zero in G. simpl in G.
  destruct video_count as [n|]; [|exact G]. rewrite G. apply Z.ltb_lt.
Qed.

Lemma has_videos_iff_count_above_zero_witness :
  fst (check_advertiser_videos "AR1" (initial env_three_videos)) = inr (true, Some 3%Z)
  /\ fst (check_advertiser_videos "AR1" (initial env_no_browser)) = inr (false, None)
  /\ (true = true <-> (0 < 3)%Z) /\ false = false.
Proof.
  split; [vm_compute; reflexivity|]. split; [vm_compute; reflexivity|]. split.
  - apply (has_videos_iff_count_above_zero "AR1" (initial env_three_videos)
             (snd (check_advertiser_videos "AR1" (initial env_three_videos)))
             true (Some 3%Z)).
    vm_compute. reflexivity.
  - apply (has_videos_iff_count_above_zero "AR1" (initial env_no_browser)
             (snd (check_advertiser_videos "AR1" (initial env_no_browser)))
             false None).
    vm_compute. reflexivity.
Defined.

Lemma find_search_input_truthy {R} (QR : R -> Prop) (sp : soup) :
  ends QR (fun s => PyStr.truthy s = true) (find_search_input sp).
Proof.
  unfold find_search_input. cbv zeta.
  eapply (ends_bind _ (fun _ => True)).
  - ends_all idtac.
  - intros s _. destruct (PyStr.truthy s) eqn:Hs; cbn [negb].
    + now apply ends_ret.
    + eapply ends_bind; [apply (ends_await _ (page_screenshot _))|].
      intros _ _. now apply ends_ret.
Qed.

Lemma read_page_guarded_ends :
  ends has_search_input has_search_input read_page_guarded.
Proof.
  unfold read_page_guarded.
  apply ends_try_finally; [|apply (ends_await _ browser_close)].
  apply ends_try_except; [|intros e; ends_all idtac].
  unfold read_page.
  eapply ends_bind; [apply (ends_await _ (page_goto _ _ _))|]. intros _ _.
  eapply ends_bind; [apply (ends_await _ (page_wait_for_load_state _ _))|]. intros _ _.
  eapply ends_bind; [apply (ends_await _ page_content)|]. intros content _.
  cbv zeta. eapply ends_bind; [apply ends_get|]. intros sp _.
  eapply ends_bind; [apply find_search_input_truthy|]. intros s Hs.
  apply ends_return. unfold has_search_input. cbn [search_input].
  intros E. rewrite E in Hs. discriminate Hs.
Qed.

Lemma get_page_content_gives (nav wait : Z) :
  gives has_search_input (get_page_content nav wait).
Proof.
  apply gives_def.
  eapply ends_bind; [apply (ends_await _ async_playwright_start)|]. intros _ _.
  apply ends_try_finally; [|apply (ends_await _ async_playwright_stop)].
  eapply ends_bind; [apply (ends_await _ chromium_launch)|]. intros _ _.
  eapply ends_bind; [ends_all idtac|]. intros _ _.
  eapply ends_bind; [apply (ends_await _ new_page)|]. intros _ _.
  eapply ends_bind; [apply ends_modify|]. intros _ _.
  eapply ends_bind; [apply ends_modify|]. intros _ _.
  apply read_page_guarded_ends.
Qed.

(** X4.  The [search_input] that [get_page_content] returns is never the
    empty string. *)
Theorem search_input_is_never_empty (nav wait : Z) (st st' : State)
    (r : page_content_dict) :
  get_page_content nav wait st = (inr r, st') -> search_input r <> EmptyString.
Proof.
  intros H. pose proof (get_page_content_gives nav wait st) as G.
  rewrite H in G. exact G.
Qed.

Lemma search_input_is_never_empty_witness :
  fst (get_page_content 60000 30000 (initial env_blank))
  = inr {| dom_content := []; search_input := "No search input found" |}
  /\ "No search input found" <> EmptyString.
Proof.
  split; [vm_compute; reflexivity|].
  apply (search_input_is_never_empty 60000 30000 (initial env_blank)
           (snd (get_page_content 60000 30000 (initial env_blank)))
           {| dom_content := []; search_input := "No search input found" |}).
  vm_compute. reflexivity.
Defined.

(** X5.  Every answer of POST /scrape to a valid body has status 200, 400 or
    500.  An answer with status 200 carries an advertiser ID that is not
    empty and a [has_videos] flag; with a video count the flag says whether
    the count is above zero, and without a count the flag is [False]. *)
Theorem scrape_answer_is_well_formed (request : AdvertiserRequest) (st : State) :
  let answer := fst (app {| method := POST; path := "/scrape"; json := Some request |} st) in
  match body answer with
  | advertiser_body r =>
      status_code answer = 200%Z
      /\ (exists id, advertiser_google_id r = Some id /\ id <> EmptyString)
      /\ (exists flag, has_videos r = Some flag
                       /\ flag_is_count_above_zero (flag, video_count r))
  | detail_body _ => status_code answer = 400%Z \/ status_code answer = 500%Z
  | ping_body _ => False
  end.
Proof.
  intros answer. subst answer. unfold app.
  change (find_route POST "/scrape") with (Some scrape_endpoint). cbn [json].
  rewrite scrape_advertiser_endpoint_run. cbv zeta.
  destruct (PyStr.truthy (PyStr.strip (advertiser_name request))); [|left; reflexivity].
  destruct (get_advertiser_id _ st) as [[e|[[|c s]|]] st1]; try (right; reflexivity).
  pose proof (check_advertiser_videos_flag (String c s) st1) as G.
  destruct (check_advertiser_videos (String c s) st1) as [[e|[flag n]] st2];
    [right; reflexivity|].
  simpl in G |- *. split; [reflexivity|]. split.
  - exists (String c s). split; [reflexivity | discriminate].
  - exists flag. split; [reflexivity | exact G].
Qed.

(** ** The scan of the page content *)

Lemma match_here_advertiser_head (c : ascii) (s : string) :
  c <> "a"%char -> Re.match_here re_advertiser (String c s) = None.
Proof.
  intros H. unfold Re.match_here. cbn [re_advertiser Re.prefix Re.lits
    list_ascii_of_string map Re.match_prefix Re.atom_matches].
  destruct (Ascii.eqb "a" c) eqn:E; [|reflexivity].
  apply Ascii.eqb_eq in E. congruence.
Qed.

Lemma none_within_digits (r after : string) :
  all_in Re.digit r -> none_within "a" (String.length r) (r +:+ after).
Proof.
  induction r as [|c r IH]; simpl; [tauto|].
  intros [Hc Hr]. split; [|now apply IH].
  intros ->. discriminate Hc.
Qed.

Lemma findall_alt_first : forall s skip i,
  none_within "a" skip s ->
  match List.filter PyStr.truthy (Re.findall_alt re_ar re_advertiser skip s) with
  | advertiser_id :: _ => Some advertiser_id
  | [] => None
  end
  = option_map Re.group1 (Re.search_from i re_advertiser s).
Proof.
  induction s as [|c s IH]; intros skip i Hskip.
  - destruct skip; reflexivity.
  - cbn [Re.findall_alt Re.search_from]. destruct skip as [|k].
    + destruct (Re.match_here re_ar (String c s)) as [[m r]|] eqn:Har.
      * apply match_here_occurs in Har.
        destruct Har as (before & after & Hs & Hlen & Hm & Hne & Hall & Hstop).
        destruct before; [|discriminate]. rewrite append_empty in Hs.
        apply (lits_match "AR") in Hm. subst m.
        change ("AR" +:+ r +:+ after) with (String "A" (String "R" (r +:+ after))) in Hs.
        injection Hs as -> ->.
        rewrite match_here_advertiser_head by discriminate.
        cbn [List.filter PyStr.truthy].
        apply IH. change ("AR" +:+ r) with (String "A" (String "R" r)).
        cbn [String.length Nat.sub].
        split; [discriminate|]. now apply none_within_digits.
      * destruct (Re.match_here re_advertiser (String c s)) as [[m r]|] eqn:Hadv.
        -- apply match_here_occurs in Hadv.
           destruct Hadv as (_ & _ & _ & _ & _ & Hne & _).
           destruct r; [congruence|]. reflexivity.
        -- apply IH. exact I.
    + destruct Hskip as [Hc Hs]. rewrite (match_here_advertiser_head _ _ Hc).
      now apply IH.
Qed.

(** Method 1 finds what [re.search(r'advertiser/([A-Z0-9]+)', content)] finds. *)
Lemma method_1_search (content : string) :
  method_1 content = option_map Re.group1 (Re.search re_advertiser content).
Proof. apply findall_alt_first. destruct content; exact I. Qed.

Lemma extract_advertiser_id_from_content_run (name : string) (st : State) :
  fst (extract_advertiser_id_from_content name st) =
  match reply (env st) (trace st) content_shot with
  | inl e => inl e
  | inr _ =>
      match reply (env st) (content_shot_taken st) page_content with
      | inl _ => inr None
      | inr content =>
          match method_1 content with
          | Some advertiser_id => inr (Some advertiser_id)
          | None =>
              match reply (env st) (content_read st)
                      (page_evaluate (js_potential_ids (PyStr.lower name))) with
              | inr (advertiser_id :: _) => inr (Some advertiser_id)
              | _ => inr None
              end
          end
      end
  end.
Proof.
  unfold extract_advertiser_id_from_content, def, method_1, content_read,
    content_shot_taken, content_shot.
  unfold bind at 1. unfold logging_info at 1, modify at 1.
  unfold bind at 1, await at 1. cbn [env trace logging with_log with_trace effective_timeout timing_of
    default_timeout].
  destruct (reply (env st) (trace st) (page_screenshot "screenshots/page_content.png"))
    as [e|[]]; [reflexivity|].
  unfold bind at 1. rewrite try_except_Exception.
  unfold bind at 1, await at 1. cbn [env trace logging with_log with_trace effective_timeout timing_of
      default_timeout].
  destruct (reply (env st) _ page_content) as [e|content]; [reflexivity|].
  unfold bind at 1.
  destruct (Re.findall_alt re_ar re_advertiser 0 content) as [|m ms] eqn:Hf.
  - cbn [List.filter]. unfold ret at 1. rewrite try_except_Exception.
    unfold bind at 1, await at 1. cbn [env trace logging with_log with_trace effective_timeout timing_of
      default_timeout].
    destruct (reply (env st) _ (page_evaluate _)) as [e|[|i ids]]; reflexivity.
  - cbv zeta. rewrite app_nil_r.
    destruct (List.filter PyStr.truthy (m :: ms)) as [|i l]; [|reflexivity].
    unfold ret at 1. rewrite try_except_Exception.
    unfold bind at 1, await at 1. cbn [env trace logging with_log with_trace effective_timeout timing_of
      default_timeout].
    destruct (reply (env st) _ (page_evaluate _)) as [e|[|i ids]]; reflexivity.
Qed.

(** X6.  When its screenshot and the reading of the page content succeed,
    [extract_advertiser_id_from_content] gives what
    [re.search(r'advertiser/([A-Z0-9]+)', content)] captures, and only when
    that finds nothing the first ID the script in the page reports, if any.
    The alternative [AR\d+] of its pattern never contributes: a bare
    [AR...] in the content is not returned. *)
Theorem content_scan_takes_the_id_after_advertiser (name content : string) (st : State) :
  reply (env st) (trace st) content_shot = inr tt ->
  reply (env st) (content_shot_taken st) page_content = inr content ->
  fst (extract_advertiser_id_from_content name st) =
  inr (match Re.search re_advertiser content with
       | Some advertiser_match => Some (Re.group1 advertiser_match)
       | None =>
           match reply (env st) (content_read st)
                   (page_evaluate (js_potential_ids (PyStr.lower name))) with
           | inr (advertiser_id :: _) => Some advertiser_id
           | _ => None
           end
       end).
Proof.
  intros Hshot Hcontent.
  rewrite extract_advertiser_id_from_content_run, Hshot, Hcontent, method_1_search.
  destruct (Re.search re_advertiser content) as [m|]; [reflexivity|]. cbn [option_map].
  destruct (reply (env st) (content_read st) _) as [e|[|i ids]]; reflexivity.
Qed.

Lemma content_scan_takes_the_id_after_advertiser_witness :
  fst (extract_advertiser_id_from_content "nike"
         (initial (env_page "<a href=/advertiser/AR34Z>AR12</a>")))
  = inr (Some "AR34Z")
  /\ fst (extract_advertiser_id_from_content "nike" (initial (env_page "<b>AR12</b>")))
     = inr None.
Proof.
  split.
  - apply (content_scan_takes_the_id_after_advertiser "nike"
             "<a href=/advertiser/AR34Z>AR12</a>"
             (initial (env_page "<a href=/advertiser/AR34Z>AR12</a>")));
      reflexivity.
  - apply (content_scan_takes_the_id_after_advertiser "nike" "<b>AR12</b>"
             (initial (env_page "<b>AR12</b>")));
      reflexivity.
Defined.


(** ** Sessions: what is closed and what is stopped *)

Lemma continues_refl (st : State) : continues [] st st.
Proof. repeat split. Qed.

Lemma continues_trans (new1 new2 : list event) (st st1 st2 : State) :
  continues new1 st st1 -> continues new2 st1 st2 -> continues (new2 ++ new1) st st2.
Proof.
  intros (E1 & B1 & T1) (E2 & B2 & T2). repeat split; try congruence.
  rewrite T2, T1. apply app_assoc.
Qed.

Lemma keeps_ret {R A} (a : A) : keeps (@ret R A a).
Proof. intros st. exists []. apply continues_refl. Qed.

Lemma keeps_return {R A} (r : R) : keeps (@return_ R A r).
Proof. intros st. exists []. apply continues_refl. Qed.

Lemma keeps_raise {R A} (e : exn) : keeps (@raise R A e).
Proof. intros st. exists []. apply continues_refl. Qed.

Lemma keeps_get {R A} (f : State -> A) : keeps (@get R A f).
Proof. intros st. exists []. apply continues_refl. Qed.

Lemma keeps_modify {R} (f : State -> State) :
  (forall st, continues [] st (f st)) -> keeps (@modify R f).
Proof. intros H st. exists []. apply H. Qed.

Lemma keeps_await {R} (c : call) : keeps (@await R c).
Proof.
  intros st. unfold await.
  destruct (reply (env st) (trace st) c); eexists [_]; repeat split.
Qed.

Lemma keeps_bind {R A B} (m : M R A) (f : A -> M R B) :
  keeps m -> (forall a, keeps (f a)) -> keeps (bind m f).
Proof.
  intros Hm Hf st. unfold bind. destruct (Hm st) as [new1 H1].
  destruct (m st) as [[a|r|e] st']; simpl in *; try (exists new1; exact H1).
  destruct (Hf a st') as [new2 H2]. exists (new2 ++ new1)%list.
  eapply continues_trans; eassumption.
Qed.

Lemma keeps_try_except {R A} (body : M R A) catches handler :
  keeps body -> (forall e, keeps (handler e)) -> keeps (try_except body catches handler).
Proof.
  intros Hb Hh st. unfold try_except. destruct (Hb st) as [new1 H1].
  destruct (body st) as [[a|r|e] st']; simpl in *; try (exists new1; exact H1).
  destruct (catches e); [|exists new1; exact H1].
  destruct (Hh e st') as [new2 H2]. exists (new2 ++ new1)%list.
  eapply continues_trans; eassumption.
Qed.

Lemma keeps_try_finally {R A} (body : M R A) (final : M R unit) :
  keeps body -> keeps final -> keeps (try_finally body final).
Proof.
  intros Hb Hf st. unfold try_finally. destruct (Hb st) as [new1 H1].
  destruct (body st) as [o st']. simpl in *. destruct (Hf st') as [new2 H2].
  exists (new2 ++ new1)%list.
  destruct (final st') as [[[]|r|e] st'']; simpl in *;
    eapply continues_trans; eassumption.
Qed.

Lemma keeps_for {R X} (xs : list X) (body : X -> M R flow) :
  (forall x, keeps (body x)) -> keeps (for_ xs body).
Proof.
  intros Hb. induction xs as [|x xs IH]; [apply keeps_ret|].
  cbn [for_]. apply keeps_bind; [apply Hb|]. intros [|]; [exact IH | apply keeps_ret].
Qed.

Lemma keeps_invoke_def {R A} (body : M A A) : keeps body -> keeps (@invoke R A (def body)).
Proof.
  intros H st. unfold invoke, def. specialize (H st).
  destruct (body st) as [[a|r|e] st']; exact H.
Qed.

(** Walk down a body that leaves [browser] alone. *)
Ltac keeps_walk :=
  lazymatch goal with
  | |- keeps (bind _ _) => apply keeps_bind; [keeps_walk | intros ?; keeps_walk]
  | |- keeps (ret _) => apply keeps_ret
  | |- keeps (return_ _) => apply keeps_return
  | |- keeps (raise _) => apply keeps_raise
  | |- keeps (get _) => apply keeps_get
  | |- keeps (await ?c) => apply (keeps_await c)
  | |- keeps (modify _) => apply keeps_modify; intros ?; repeat split
  | |- keeps (try_except _ _ _) => apply keeps_try_except; [keeps_walk | intros ?; keeps_walk]
  | |- keeps (try_finally _ _) => apply keeps_try_finally; [keeps_walk | keeps_walk]
  | |- keeps (for_ _ _) => apply keeps_for; intros ?; keeps_walk
  | |- keeps (invoke (def _)) => apply keeps_invoke_def; keeps_walk
  | |- keeps (invoke ?f) => let h := head_of f in unfold h; keeps_walk
  | |- keeps (match ?b with true => _ | false => _ end) => destruct b; keeps_walk
  | |- keeps (match ?o with Some _ => _ | None => _ end) => destruct o; keeps_walk
  | |- keeps (match ?l with [] => _ | _ :: _ => _ end) => destruct l; keeps_walk
  | |- keeps (match ?f with Continue => _ | Break => _ end) => destruct f; keeps_walk
  | |- keeps (let _ := _ in _) => cbv zeta; keeps_walk
  | |- keeps ?m => let h := head_of m in unfold h; keeps_walk
  end.

Lemma search_strategies_keeps (name : string) :
  keeps (browser_new_context 1280 720;; set_default_timeout 90000;;
         search_strategies name).
Proof. keeps_walk. Qed.

Lemma video_page_keeps (id : string) :
  keeps (browser_new_context 1280 720;; set_default_timeout 60000;; video_page id).
Proof. keeps_walk. Qed.

Lemma count_app (p : event -> bool) (a b : list event) :
  count p (a ++ b) = (count p a + count p b)%nat.
Proof. unfold count. now rewrite List.filter_app, List.length_app. Qed.

Lemma adds_at_most {R A} (p : event -> bool) (k : nat) (m : M R A) (st : State)
    (new : list event) :
  within any_timeouts p k m -> continues new st (snd (m st)) -> (count p new <= k)%nat.
Proof.
  intros Hw (_ & _ & Ht). destruct (Hw st I) as [_ Hc].
  rewrite Ht, count_app in Hc. lia.
Qed.

Lemma launched_app (a b : list event) : launched (a ++ b) = launched a || launched b.
Proof. apply existsb_app. Qed.

Lemma session_run {R A} (rest : M R A) (st : State) :
  browser_var st = false -> keeps rest -> within any_timeouts closes 0 rest ->
  session_state st
    (snd ((await async_playwright_start;; await chromium_launch;;
           modify (with_browser true);; rest) st)).
Proof.
  intros Hb Hk Hw. unfold bind at 1, await at 1.
  destruct (reply (env st) (trace st) async_playwright_start) as [e|[]].
  { eexists [_]. repeat split. exact Hb. }
  unfold bind at 1, await at 1. cbn [env trace with_trace].
  destruct (reply (env st) _ chromium_launch) as [e|[]].
  { eexists [_; _]. repeat split. exact Hb. }
  unfold bind at 1, modify at 1.
  match goal with |- session_state _ (snd (rest ?s)) => set (st2 := s) end.
  destruct (Hk st2) as [new Hc].
  pose proof (adds_at_most _ _ _ _ _ Hw Hc) as Hn.
  destruct Hc as (He & Hv & Ht).
  exists (new ++ [Event chromium_launch None false;
                  Event async_playwright_start None false])%list.
  split; [exact He|]. split; [rewrite Ht, <- app_assoc; reflexivity|].
  split; [rewrite count_app; change (count closes [_; _]) with 0%nat; lia|].
  rewrite Hv, launched_app. change (launched [_; _]) with true.
  now rewrite orb_true_r.
Qed.

Lemma closed_after_session (st st1 : State) :
  session_state st st1 -> closes_what_it_launched st (closed st1).
Proof.
  intros (new & He & Ht & Hc & Hb). unfold closed. rewrite Hb.
  destruct (launched new) eqn:Hl.
  - eexists (_ :: new). split; [cbn [trace with_trace]; rewrite Ht; reflexivity|].
    right. eexists _, new. repeat split; assumption.
  - exists new. split; [exact Ht|]. left. split; assumption.
Qed.

Lemma search_session_state (name : string) (st : State) :
  session_state st (snd (search_session name (search_start name st))).
Proof.
  apply (session_run (browser_new_context 1280 720;; set_default_timeout 90000;;
                      search_strategies name) (search_start name st)).
  - reflexivity.
  - apply search_strategies_keeps.
  - eapply within_weaken; [within_walk ltac:(intros; reflexivity) | vm_compute; lia].
Qed.

Lemma video_session_state (id : string) (st : State) :
  session_state st (snd (video_session id (videos_start id st))).
Proof.
  apply (session_run (browser_new_context 1280 720;; set_default_timeout 60000;;
                      video_page id) (videos_start id st)).
  - reflexivity.
  - apply video_page_keeps.
  - eapply within_weaken; [within_walk ltac:(intros; reflexivity) | vm_compute; lia].
Qed.

Lemma get_advertiser_id_closes (name : string) (st : State) :
  closes_what_it_launched st (snd (get_advertiser_id name st)).
Proof.
  destruct (known_ids !! PyStr.lower name) as [i|] eqn:Hk.
  - rewrite (get_advertiser_id_known _ _ _ Hk). exists []. split; [reflexivity|].
    left. split; reflexivity.
  - rewrite (get_advertiser_id_unknown _ _ Hk).
    pose proof (search_session_state name st) as Hs.
    destruct (search_session name (search_start name st)) as [[a|r|e] st1];
      [| |rewrite search_failed_run];
      cbn [snd] in Hs |- *; apply closed_after_session; exact Hs.
Qed.

Lemma check_advertiser_videos_closes (id : string) (st : State) :
  closes_what_it_launched st (snd (check_advertiser_videos id st)).
Proof.
  destruct (known_video_counts !! id) as [n|] eqn:Hk.
  - rewrite (check_advertiser_videos_known _ _ _ Hk). exists []. split; [reflexivity|].
    left. split; reflexivity.
  - rewrite (check_advertiser_videos_unknown _ _ Hk).
    pose proof (video_session_state id st) as Hs.
    destruct (video_session id (videos_start id st)) as [[a|r|e] st1];
      [| |rewrite videos_failed_run];
      cbn [snd] in Hs |- *; apply closed_after_session; exact Hs.
Qed.

(** X8.  [get_advertiser_id] and [check_advertiser_videos] close what they
    launch: when a browser was launched during the call, [browser.close()] is
    the last call made and is made once; when none was launched,
    [browser.close()] is not called. *)
Theorem a_launched_browser_is_closed :
  (forall name st, closes_what_it_launched st (snd (get_advertiser_id name st)))
  /\ (forall id st, closes_what_it_launched st (snd (check_advertiser_videos id st))).
Proof. split; [apply get_advertiser_id_closes | apply check_advertiser_videos_closes]. Qed.

Lemma check_advertiser_videos_within (p : event -> bool) (k : nat) (id : string) :
  (forall i, within any_timeouts p k (count_videos i)) ->
  within_fn any_timeouts p k (check_advertiser_videos id).
Proof.
  intros H. unfold check_advertiser_videos. apply within_def.
  eapply within_weaken.
  - eapply within_bind; [within_walk ltac:(intros; reflexivity)|]. intros _.
    eapply within_option; [intros ?; within_walk ltac:(intros; reflexivity) | apply H].
  - vm_compute. lia.
Qed.

Lemma adds_none (p : event -> bool) (st st' : State) (new : list event) :
  trace st' = (new ++ trace st)%list ->
  (count p (trace st') <= count p (trace st) + 0)%nat -> count p new = 0%nat.
Proof. intros Ht Hc. rewrite Ht, count_app in Hc. lia. Qed.

(** X9.  [get_advertiser_id] and [check_advertiser_videos] never stop the
    Playwright instance they start: no call of [stop] is among the calls they
    make. *)
Theorem playwright_is_never_stopped :
  (forall name st, exists new,
      trace (snd (get_advertiser_id name st)) = (new ++ trace st)%list
      /\ count playwright_stops new = 0%nat)
  /\ (forall id st, exists new,
        trace (snd (check_advertiser_videos id st)) = (new ++ trace st)%list
        /\ count playwright_stops new = 0%nat).
Proof.
  split.
  - intros name st. destruct (get_advertiser_id_closes name st) as (new & Ht & _).
    exists new. split; [exact Ht|]. apply (adds_none _ _ _ _ Ht).
    apply (get_advertiser_id_within playwright_stops 0 name); [|exact I].
    intros n. eapply within_weaken;
      [within_walk ltac:(intros; reflexivity) | vm_compute; lia].
  - intros id st. destruct (check_advertiser_videos_closes id st) as (new & Ht & _).
    exists new. split; [exact Ht|]. apply (adds_none _ _ _ _ Ht).
    apply (check_advertiser_videos_within playwright_stops 0 id); [|exact I].
    intros n. eapply within_weaken;
      [within_walk ltac:(intros; reflexivity) | vm_compute; lia].
Qed.

Lemma await_state {R} (c : call) (st : State) :
  snd (@await R c st) =
  with_trace (Event c (effective_timeout st c)
                (match reply (env st) (trace st) c with inl _ => true | inr _ => false end)
              :: trace st) st.
Proof. unfold await. destruct (reply (env st) (trace st) c); reflexivity. Qed.

Lemma try_finally_state {R A} (body : M R A) (final : M R unit) (st : State) :
  snd (try_finally body final st) = snd (final (snd (body st))).
Proof.
  unfold try_finally. destruct (body st) as [o st'].
  cbn [snd]. destruct (final st') as [[[]|r|e] st'']; reflexivity.
Qed.

Lemma def_state {R} (body : M R R) (st : State) : snd (def body st) = snd (body st).
Proof. unfold def. destruct (body st) as [[a|r|e] st']; reflexivity. Qed.

Lemma page_created_app (a b : list event) :
  page_created (a ++ b) = page_created a || page_created b.
Proof. apply existsb_app. Qed.

Lemma read_page_keeps :
  keeps (try_except read_page except_Exception (@read_page_failed page_content_dict)).
Proof. keeps_walk. Qed.

Lemma read_page_within (p : event -> bool) :
  (forall t b, p (Event page_content t b) = false) ->
  (forall s t b, p (Event (page_goto s None None) t b) = false) ->
  (forall s t b, p (Event (page_wait_for_load_state s None) t b) = false) ->
  (forall s t b, p (Event (page_evaluate s) t b) = false) ->
  (forall s t b, p (Event (page_screenshot s) t b) = false) ->
  within any_timeouts p 0
    (try_except read_page except_Exception (@read_page_failed page_content_dict)).
Proof.
  intros H1 H2 H3 H4 H5.
  eapply within_weaken;
    [within_walk ltac:(intros; first [apply H1 | apply H2 | apply H3 | apply H4 | apply H5])
    | vm_compute; lia].
Qed.

Lemma read_page_guarded_state (st : State) :
  exists raised work,
    trace (snd (read_page_guarded st))
    = (Event browser_close None raised :: work ++ trace st)%list
    /\ env (snd (read_page_guarded st)) = env st
    /\ count closes work = 0%nat /\ count playwright_stops work = 0%nat
    /\ page_created work = false.
Proof.
  unfold read_page_guarded. rewrite try_finally_state, (await_state browser_close).
  set (inner := try_except read_page except_Exception read_page_failed).
  destruct (read_page_keeps st) as (work & He & _ & Ht). fold inner in He, Ht.
  eexists _, work. cbn [trace env with_trace]. rewrite Ht.
  split; [reflexivity|]. split; [exact He|].
  assert (Hc : forall p, within any_timeouts p 0 inner -> count p work = 0%nat).
  { intros p Hw. destruct (Hw st I) as [_ Hn]. rewrite Ht, count_app in Hn. lia. }
  split; [|split].
  - apply Hc, read_page_within; reflexivity.
  - apply Hc, read_page_within; reflexivity.
  - assert (Hn : count (calls (fun c => match c with new_page => true | _ => false end))
                   work = 0%nat) by (apply Hc, read_page_within; reflexivity).
    pose proof (proj1 (count_zero _ _) Hn) as Hz. unfold page_created.
    apply not_true_is_false. intros Hex. apply existsb_exists in Hex as (ev & Hin & Hev).
    specialize (Hz ev Hin). unfold calls in Hz. destruct (ev_call ev); discriminate.
Qed.

Lemma page_session_state (nav wait : Z) (st : State) :
  exists before,
    trace (snd (page_session nav wait st)) = (before ++ trace st)%list
    /\ count playwright_stops before = 0%nat
    /\ closed_if_page_created before.
Proof.
  unfold page_session.
  unfold bind at 1, await at 1.
  destruct (reply (env st) _ chromium_launch) as [e|[]].
  { eexists [_]. split; [reflexivity|]. split; reflexivity. }
  unfold browser_new_context. unfold bind at 1, bind at 1, await at 1.
  cbn [env trace with_trace].
  destruct (reply (env st) _ (new_context 1280 800)) as [e|[]].
  { eexists [_; _]. split; [reflexivity|]. split; reflexivity. }
  unfold modify at 1. unfold bind at 1, await at 1.
  cbn [env trace with_trace with_timeouts].
  destruct (reply (env st) _ new_page) as [e|[]].
  { eexists [_; _; _]. split; [reflexivity|]. split; reflexivity. }
  unfold set_default_navigation_timeout, set_default_timeout.
  unfold bind at 1, modify at 1. unfold bind at 1, modify at 1.
  match goal with |- context [read_page_guarded ?s] => set (st5 := s) end.
  destruct (read_page_guarded_state st5) as (raised & work & Ht & He & Hc & Hs & Hp).
  eexists (_ :: work ++ [_; _; _])%list.
  split.
  { rewrite Ht. subst st5. cbn [trace with_trace with_timeouts].
    rewrite <- app_comm_cons, <- app_assoc. reflexivity. }
  split.
  - change (count playwright_stops (Event browser_close None raised :: ?l))
      with (count playwright_stops l).
    rewrite count_app, Hs. reflexivity.
  - unfold closed_if_page_created. replace (page_created _) with true.
    + eexists _, _. split; [reflexivity|]. rewrite count_app, Hc. reflexivity.
    + symmetry. change (page_created (Event browser_close None raised :: ?l))
        with (page_created l).
      rewrite page_created_app, Hp. reflexivity.
Qed.

Lemma closed_if_page_created_app (before rest : list event) :
  closed_if_page_created before -> page_created rest = false ->
  count closes rest = 0%nat -> closed_if_page_created (before ++ rest).
Proof.
  unfold closed_if_page_created. intros H Hp Hc.
  rewrite page_created_app, Hp, orb_false_r.
  destruct (page_created before).
  - destruct H as (raised & work & -> & Hw). exists raised, (work ++ rest)%list.
    split; [reflexivity|]. rewrite count_app, Hw, Hc. reflexivity.
  - rewrite count_app, H, Hc. reflexivity.
Qed.

(** X10.  [get_page_content] stops Playwright whenever it started it, as its
    last call and once; when Playwright does not start, nothing else is
    called.  The browser is closed, as the last call before the stop, exactly
    when the page was created: when [new_context] or [new_page] fails after a
    launch, [browser.close()] is not called. *)
Theorem get_page_content_tears_down (nav wait : Z) (st : State) :
  exists new,
    trace (snd (get_page_content nav wait st)) = (new ++ trace st)%list
    /\ if succeeds (reply (env st) (trace st) async_playwright_start)
       then exists raised before,
              new = Event async_playwright_stop None raised :: before
              /\ count playwright_stops before = 0%nat
              /\ closed_if_page_created before
       else new = [Event async_playwright_start None true].
Proof.
  unfold get_page_content. rewrite def_state. fold (page_session nav wait).
  unfold bind at 1, await at 1.
  destruct (reply (env st) (trace st) async_playwright_start) as [e|[]].
  { exists [Event async_playwright_start None true]. split; reflexivity. }
  cbn [succeeds effective_timeout timing_of].
  rewrite try_finally_state, (await_state async_playwright_stop).
  destruct (page_session_state nav wait
              (with_trace (Event async_playwright_start None false :: trace st) st))
    as (before & Ht & Hs & Hc).
  cbn [trace with_trace effective_timeout timing_of].
  eexists (_ :: before ++ [_])%list.
  split.
  { rewrite Ht. cbn [trace with_trace].
    rewrite <- app_comm_cons, <- app_assoc. reflexivity. }
  eexists _, _. split; [reflexivity|]. split.
  - rewrite count_app, Hs. reflexivity.
  - apply closed_if_page_created_app; [exact Hc | reflexivity | reflexivity].
Qed.

Lemma keeps_def {A} (body : M A A) (st : State) :
  keeps body -> exists new, trace (snd (def body st)) = (new ++ trace st)%list.
Proof.
  intros H. rewrite def_state. destruct (H st) as (new & _ & _ & Ht). now exists new.
Qed.

Lemma adds_no_within {A} (p : event -> bool) (f : fn A) :
  (forall st, exists new, trace (snd (f st)) = (new ++ trace st)%list) ->
  within_fn any_timeouts p 0 f -> adds_no p f.
Proof.
  intros He Hw st. destruct (He st) as [new Ht]. exists new. split; [exact Ht|].
  apply (adds_none p st (snd (f st)) new Ht). now apply Hw.
Qed.

Lemma get_page_content_extends (nav wait : Z) (st : State) :
  exists new, trace (snd (get_page_content nav wait st)) = (new ++ trace st)%list.
Proof. apply keeps_def. keeps_walk. Qed.

Ltac goto_side :=
  intros; first [reflexivity
                | unfold navigates_away_from; cbn [ev_call];
                  rewrite String.eqb_refl; reflexivity].

(** X11.  The only URL that [get_advertiser_id] and [get_page_content] open
    with [page.goto] is the home page of the portal, and the only one that
    [check_advertiser_videos] opens is the video page of the given ID: the
    advertiser name is typed into the page but never becomes part of a URL
    passed to [page.goto]. *)
Theorem navigation_stays_on_the_portal :
  (forall name, adds_no (navigates_away_from home) (get_advertiser_id name))
  /\ (forall id, adds_no (navigates_away_from (video_url id)) (check_advertiser_videos id))
  /\ (forall nav wait, adds_no (navigates_away_from home) (get_page_content nav wait)).
Proof.
  split; [|split].
  - intros name. apply adds_no_within.
    + intros st. destruct (get_advertiser_id_closes name st) as (new & Ht & _).
      now exists new.
    + apply get_advertiser_id_within. intros n.
      eapply within_weaken; [within_walk goto_side | vm_compute; lia].
  - intros id. apply adds_no_within.
    + intros st. destruct (check_advertiser_videos_closes id st) as (new & Ht & _).
      now exists new.
    + unfold check_advertiser_videos, video_url. apply within_def.
      eapply within_weaken; [within_walk goto_side | vm_compute; lia].
  - intros nav wait. apply adds_no_within; [apply get_page_content_extends|].
    unfold get_page_content. apply within_def.
    eapply within_weaken; [within_walk goto_side | vm_compute; lia].
Qed.

(** ** Which failures end a session *)


Section RaisesOnlyAt.
Context (p : call -> bool).








End RaisesOnlyAt.




Lemma raised_by_close_session (e : exn) (st : State) :
  raised_by_close e st -> raised_by session_call e st.
Proof.
  intros (tr & Ht & Hr). exists browser_close, None, [], tr.
  split; [exact Ht | split; [reflexivity | exact Hr]].
Qed.







(** ** Configuration and the IDs read from a URL *)


















(** ** The plain functions *)

Lemma read_image_nothing (w : Requests.Web) (url : string) (st : Requests.Run) :
  exists lines,
    Requests.try_except (read_image w url) (fun e =>
      Requests.bind
        (Requests.print ("Error processing image " +:+ url +:+ ": " +:+ str_exn e))
        (fun _ => Requests.pure None)) st
    = (inr None, {| Requests.sent := image_request url :: Requests.sent st;
                    Requests.printed := (lines ++ Requests.printed st)%list |}).
Proof.
  unfold Requests.try_except, read_image, Requests.bind at 1, Requests.requests_get.
  fold (image_request url).
  destruct (Requests.get w (Requests.sent st) (image_request url)) as [e|response].
  - eexists [_]. reflexivity.
  - destruct (Requests.status_code response =? 200)%Z.
    + eexists [_]. reflexivity.
    + exists []. reflexivity.
Qed.

(** X16.  [extract_text_from_images] returns the empty list for every list
    of URLs and every behaviour of the network, and never raises: the names
    [Image], [io] and [pytesseract] are not imported, so each image that is
    downloaded ends in the handler.  It sends one request per URL, in the
    order of the list, each with a timeout of 10 seconds. *)
Theorem no_text_is_ever_extracted (w : Requests.Web) (image_urls : list string)
    (st : Requests.Run) :
  fst (extract_text_from_images w image_urls st) = inr []
  /\ Requests.sent (snd (extract_text_from_images w image_urls st))
     = (rev (map image_request image_urls) ++ Requests.sent st)%list.
Proof.
  unfold extract_text_from_images. generalize (@nil string) as results. revert st.
  induction image_urls as [|url rest IH]; intros st results; [split; reflexivity|].
  cbn [read_images]. destruct (read_image_nothing w url st) as [lines E].
  set (body := Requests.try_except _ _) in *. unfold Requests.bind. rewrite E.
  destruct (IH {| Requests.sent := image_request url :: Requests.sent st;
                  Requests.printed := (lines ++ Requests.printed st)%list |} results)
    as [Hr Hs].
  split; [exact Hr|]. rewrite Hs. cbn [map rev Requests.sent].
  now rewrite <- app_assoc.
Qed.

Lemma http_is_not_data (src : string) :
  startswith "http://" src || startswith "https://" src = true ->
  PyStr.truthy src = true /\ startswith "data:" src = false.
Proof.
  destruct src as [|c s]; [discriminate|]. unfold startswith. cbn [String.prefix].
  destruct (ascii_dec "h" c) as [<-|Hh]; [|now rewrite orb_diag].
  destruct (ascii_dec "d" "h"); [discriminate|]. now split.
Qed.

Lemma collect_image_urls_spec (w : Requests.Web) (base_url : string)
    (img_elements : list (option string)) : forall image_urls,
  let result := collect_image_urls w base_url img_elements image_urls in
  (forall u, In u image_urls -> In u result)
  /\ (forall u, In u result -> In u image_urls \/ startswith "data:" u = false)
  /\ (forall src, In (Some src) img_elements ->
        startswith "http://" src || startswith "https://" src = true -> In src result)
  /\ (List.length result <= List.length image_urls + List.length img_elements)%nat.
Proof.
  induction img_elements as [|src rest IH]; intros image_urls; cbn [collect_image_urls].
  - repeat split; auto; [intros src []|cbn; lia].
  - cbv zeta.
    match goal with |- context [collect_image_urls w base_url rest ?a] => set (acc := a) end.
    destruct (IH acc) as (Hkeep & Hnew & Habs & Hlen). cbv zeta in Hkeep, Hnew, Habs, Hlen.
    assert (Hacc : forall u, In u image_urls -> In u acc).
    { intros u Hu. subst acc. destruct src as [s|]; [|exact Hu].
      destruct (PyStr.truthy s); [|exact Hu].
      destruct (negb (startswith "data:" _)); [|exact Hu].
      apply in_or_app. now left. }
    assert (Hdata : forall u, In u acc -> In u image_urls \/ startswith "data:" u = false).
    { intros u Hu. subst acc. destruct src as [s|]; [|now left].
      destruct (PyStr.truthy s); [|now left].
      destruct (negb (startswith "data:" _)) eqn:Hd; [|now left].
      apply in_app_or in Hu as [Hu|[<-|[]]]; [now left|]. right.
      now apply negb_true_iff in Hd. }
    assert (Hlen' : (List.length acc <= S (List.length image_urls))%nat).
    { subst acc. destruct src as [s|]; [|lia].
      destruct (PyStr.truthy s); [|lia].
      destruct (negb (startswith "data:" _)); [|lia].
      rewrite List.length_app. cbn. lia. }
    repeat split.
    + intros u Hu. apply Hkeep, Hacc, Hu.
    + intros u Hu. destruct (Hnew u Hu) as [Hin|Hd]; [now apply Hdata | now right].
    + intros s [Hs|Hs] Hp; [|now apply Habs].
      apply Hkeep. subst acc src. destruct (http_is_not_data s Hp) as [Ht Hd].
      rewrite Ht, Hp, Hd. cbn [negb orb]. rewrite Hd. cbn [negb].
      apply in_or_app. right. now left.
    + cbn [List.length]. lia.
Qed.

(** X17.  [scrape_advertiser_page] sends one request, without a timeout.  It
    raises what the request raises, and "Failed to fetch advertiser page:
    HTTP <status>" for a status other than 200.  Otherwise no image URL it
    returns starts with "data:", every [src] that starts with "http://" or
    "https://" is among them, and there are at most as many as there are
    [img] elements. *)
Theorem scraped_image_urls_are_never_data_urls (w : Requests.Web) (advertiser_id : string)
    (st : Requests.Run) :
  let result := scrape_advertiser_page w advertiser_id st in
  Requests.sent (snd result) = page_request advertiser_id :: Requests.sent st
  /\ match Requests.get w (Requests.sent st) (page_request advertiser_id) with
     | inl e => fst result = inl e
     | inr response =>
         if (Requests.status_code response =? 200)%Z then
           exists image_urls,
             fst result
             = inr (list_to_set (Requests.tag_names w (Requests.text response)), image_urls)
             /\ (forall u, In u image_urls -> startswith "data:" u = false)
             /\ (forall src,
                   In (Some src) (Requests.img_srcs w (Requests.text response)) ->
                   startswith "http://" src || startswith "https://" src = true ->
                   In src image_urls)
             /\ (List.length image_urls
                 <= List.length (Requests.img_srcs w (Requests.text response)))%nat
         else
           fst result
           = inl (Exn Exception ("Failed to fetch advertiser page: HTTP "
                                 +:+ str_Z (Requests.status_code response)))
     end.
Proof.
  intros result. subst result.
  unfold scrape_advertiser_page, Requests.bind, Requests.requests_get. cbv zeta.
  fold (page_request advertiser_id).
  destruct (Requests.get w (Requests.sent st) (page_request advertiser_id))
    as [e|response]; [split; reflexivity|].
  destruct (Requests.status_code response =? 200)%Z; [|split; reflexivity].
  split; [reflexivity|]. eexists. split; [reflexivity|].
  destruct (collect_image_urls_spec w
              ("https://adstransparency.google.com/advertiser/" +:+ advertiser_id
               +:+ "?region=US")
              (Requests.img_srcs w (Requests.text response)) [])
    as (_ & Hdata & Habs & Hlen).
  cbv zeta in Hdata, Habs, Hlen.
  split; [|split; [exact Habs | exact Hlen]].
  intros u Hu. destruct (Hdata u Hu) as [[]|Hd]. exact Hd.
Qed.

Lemma char_facts (c : ascii) :
  word_char (PyStr.lower_char c) = word_char c
  /\ PyStr.lower_char (PyStr.lower_char c) = PyStr.lower_char c
  /\ PyStr.isspace (PyStr.lower_char c) = PyStr.isspace c
  /\ (word_char c = true -> PyStr.isspace c = false)
  /\ (PyStr.isspace c = true -> PyStr.lower_char c = c).
Proof.
  destruct c as [[] [] [] [] [] [] [] []]; vm_compute; repeat split; congruence.
Qed.

Lemma word_char_not_space (c : ascii) :
  word_char c = true -> PyStr.isspace c = false /\ Ascii.eqb c " " = false.
Proof.
  intros H. split; [now apply char_facts|].
  apply Ascii.eqb_neq. intros ->. discriminate H.
Qed.

Lemma pipeline_spaced (s : string) : forall b,
  spaced b (collapse_whitespace b (remove_special (PyStr.lower s))) = true.
Proof.
  induction s as [|c s IH]; intros b; [reflexivity|].
  cbn [PyStr.lower remove_special].
  destruct (char_facts c) as (Hw & Hl & Hs & _ & _).
  destruct (word_char (PyStr.lower_char c)) eqn:Hc.
  - cbn [orb collapse_whitespace].
    destruct (word_char_not_space _ Hc) as [Hsp Heq]. rewrite Hsp.
    cbn [spaced]. now rewrite Heq, Hc, Hl, Ascii.eqb_refl, IH.
  - cbn [orb]. destruct (PyStr.isspace (PyStr.lower_char c)) eqn:Hsp; [|apply IH].
    cbn [collapse_whitespace]. rewrite Hsp.
    destruct b; [apply IH|]. cbn [spaced]. now rewrite IH.
Qed.

Lemma spaced_lstrip (s : string) : forall b,
  spaced b s = true -> spaced true (PyStr.lstrip s) = true.
Proof.
  induction s as [|c s IH]; intros b H; [reflexivity|].
  cbn [spaced] in H. cbn [PyStr.lstrip].
  destruct (Ascii.eqb c " ") eqn:Hc.
  - apply Ascii.eqb_eq in Hc. subst c. change (PyStr.isspace " ") with true. cbv iota.
    apply andb_true_iff in H as [_ H]. now apply (IH true).
  - apply andb_true_iff in H as [H1 H2]. apply andb_true_iff in H1 as [Hw Hl].
    destruct (word_char_not_space _ Hw) as [Hsp _]. rewrite Hsp.
    cbn [spaced]. now rewrite Hc, Hw, Hl, H2.
Qed.

Lemma spaced_rstrip (s : string) : forall b,
  spaced b s = true ->
  PyStr.rstrip s = EmptyString \/ words_from b (PyStr.rstrip s) = true.
Proof.
  induction s as [|c s IH]; intros b H; [now left|].
  cbn [spaced] in H. cbn [PyStr.rstrip].
  destruct (Ascii.eqb c " ") eqn:Hc.
  - apply Ascii.eqb_eq in Hc. subst c. apply andb_true_iff in H as [Hb H].
    destruct (IH true H) as [E|Hw].
    + rewrite E. now left.
    + destruct (PyStr.rstrip s) as [|c' r]; [discriminate Hw|]. right.
      cbn [words_from]. change (Ascii.eqb " " " ") with true. cbv iota.
      now rewrite Hb.
  - apply andb_true_iff in H as [H1 H2]. apply andb_true_iff in H1 as [Hw Hl].
    destruct (word_char_not_space _ Hw) as [Hsp _]. right.
    destruct (IH false H2) as [E|Hr].
    + rewrite E, Hsp. cbn [words_from]. now rewrite Hc, Hw, Hl.
    + destruct (PyStr.rstrip s) as [|c' r]; [rewrite Hsp|];
        cbn [words_from]; rewrite Hc, Hw, Hl; [reflexivity | exact Hr].
Qed.

Lemma cleaned_spaced (text : string) :
  let r := PyStr.strip (collapse_whitespace false (remove_special (PyStr.lower text))) in
  r = EmptyString \/ normalised r = true.
Proof.
  cbv zeta. unfold PyStr.strip, normalised. apply spaced_rstrip.
  apply (spaced_lstrip _ false), pipeline_spaced.
Qed.

Lemma words_lower (r : string) : forall b, words_from b r = true -> PyStr.lower r = r.
Proof.
  induction r as [|c r IH]; intros b H; [reflexivity|].
  cbn [words_from] in H. cbn [PyStr.lower].
  destruct (Ascii.eqb c " ") eqn:Hc.
  - apply Ascii.eqb_eq in Hc. subst c. apply andb_true_iff in H as [_ H].
    now rewrite (IH true H).
  - apply andb_true_iff in H as [H1 H2]. apply andb_true_iff in H1 as [_ Hl].
    apply Ascii.eqb_eq in Hl. now rewrite Hl, (IH false H2).
Qed.

Lemma words_remove_special (r : string) : forall b,
  words_from b r = true -> remove_special r = r.
Proof.
  induction r as [|c r IH]; intros b H; [reflexivity|].
  cbn [words_from] in H. cbn [remove_special].
  destruct (Ascii.eqb c " ") eqn:Hc.
  - apply Ascii.eqb_eq in Hc. subst c. apply andb_true_iff in H as [_ H].
    change (word_char " " || PyStr.isspace " ") with true. cbv iota.
    now rewrite (IH true H).
  - apply andb_true_iff in H as [H1 H2]. apply andb_true_iff in H1 as [Hw _].
    rewrite Hw. cbn [orb]. now rewrite (IH false H2).
Qed.

Lemma words_collapse (r : string) : forall b,
  words_from b r = true -> collapse_whitespace b r = r.
Proof.
  induction r as [|c r IH]; intros b H; [reflexivity|].
  cbn [words_from] in H. cbn [collapse_whitespace].
  destruct (Ascii.eqb c " ") eqn:Hc.
  - apply Ascii.eqb_eq in Hc. subst c. apply andb_true_iff in H as [Hb H].
    change (PyStr.isspace " ") with true. cbv iota.
    destruct b; [discriminate Hb|]. now rewrite (IH true H).
  - apply andb_true_iff in H as [H1 H2]. apply andb_true_iff in H1 as [Hw _].
    destruct (word_char_not_space _ Hw) as [Hsp _]. rewrite Hsp.
    now rewrite (IH false H2).
Qed.

Lemma words_weaken (r : string) : words_from true r = true -> words_from false r = true.
Proof.
  destruct r as [|c r]; [discriminate|]. cbn [words_from negb].
  destruct (Ascii.eqb c " "); [discriminate | tauto].
Qed.

Lemma words_rstrip (r : string) : forall b, words_from b r = true -> PyStr.rstrip r = r.
Proof.
  induction r as [|c r IH]; intros b H; [reflexivity|].
  cbn [words_from] in H. cbn [PyStr.rstrip].
  destruct (Ascii.eqb c " ") eqn:Hc.
  - apply andb_true_iff in H as [_ H]. rewrite (IH true H).
    destruct r; [discriminate H | reflexivity].
  - apply andb_true_iff in H as [H1 H2]. apply andb_true_iff in H1 as [Hw _].
    destruct (word_char_not_space _ Hw) as [Hsp _].
    rewrite (IH false H2), Hsp. now destruct r.
Qed.

Lemma normalised_strip (r : string) : normalised r = true -> PyStr.strip r = r.
Proof.
  intros H. unfold PyStr.strip.
  assert (E : PyStr.lstrip r = r).
  { destruct r as [|c r]; [reflexivity|]. unfold normalised in H.
    cbn [words_from negb andb] in H. cbn [PyStr.lstrip].
    destruct (Ascii.eqb c " "); [discriminate H|].
    apply andb_true_iff in H as [H1 _]. apply andb_true_iff in H1 as [Hw _].
    destruct (word_char_not_space _ Hw) as [Hsp _]. now rewrite Hsp. }
  rewrite E. now apply (words_rstrip r true).
Qed.

Lemma normalised_fixed (r : string) : normalised r = true -> clean_text r = Some r.
Proof.
  intros H. unfold clean_text. cbv zeta.
  rewrite (words_lower r true H), (words_remove_special r true H).
  rewrite (words_collapse r false (words_weaken r H)), (normalised_strip r H).
  destruct r as [|c r]; [discriminate H|]. reflexivity.
Qed.

(** X18.  The text that the cleaning step of [extract_text_from_images]
    keeps is made of words separated by single spaces, without a space at
    either end, each word of letters, digits and underscores in lower case;
    cleaning it again changes nothing. *)
Theorem cleaned_text_is_normalised (text r : string) :
  clean_text text = Some r -> normalised r = true /\ clean_text r = Some r.
Proof.
  intros H.
  assert (Hn : normalised r = true).
  { unfold clean_text in H. cbv zeta in H.
    destruct (PyStr.truthy text && _); [|discriminate].
    destruct (cleaned_spaced text) as [E|Hn]; cbv zeta in *.
    - rewrite E in H. discriminate H.
    - destruct (PyStr.truthy _); [|discriminate]. now inversion H; subst. }
  split; [exact Hn | now apply normalised_fixed].
Qed.

Lemma cleaned_text_is_normalised_witness :
  clean_text ("  Hello,   WORLD! " +:+ String "010" "(2nd_line)") = Some "hello world 2nd_line"
  /\ normalised "hello world 2nd_line" = true
  /\ clean_text "hello world 2nd_line" = Some "hello world 2nd_line".
Proof.
  split; [reflexivity|].
  apply (cleaned_text_is_normalised
           ("  Hello,   WORLD! " +:+ String "010" "(2nd_line)")).
  reflexivity.
Defined.

Lemma has_word_lower (s : string) : has_word_char (PyStr.lower s) = has_word_char s.
Proof.
  induction s as [|c s IH]; [reflexivity|]. cbn [PyStr.lower has_word_char].
  destruct (char_facts c) as (-> & _). now rewrite IH.
Qed.

Lemma has_word_remove_special (s : string) :
  has_word_char (remove_special s) = has_word_char s.
Proof.
  induction s as [|c s IH]; [reflexivity|]. cbn [remove_special has_word_char].
  destruct (word_char c) eqn:Hw; cbn [orb].
  - cbn [has_word_char]. now rewrite Hw.
  - destruct (PyStr.isspace c); [cbn [has_word_char]; rewrite Hw|]; exact IH.
Qed.

Lemma has_word_collapse (s : string) : forall b,
  has_word_char (collapse_whitespace b s) = has_word_char s.
Proof.
  induction s as [|c s IH]; intros b; [reflexivity|].
  cbn [collapse_whitespace has_word_char].
  destruct (PyStr.isspace c) eqn:Hsp.
  - assert (Hw : word_char c = false).
    { destruct (word_char c) eqn:Hw; [|reflexivity].
      apply word_char_not_space in Hw as [Hw _]. congruence. }
    rewrite Hw. destruct b; [apply IH|]. cbn [has_word_char]. apply IH.
  - cbn [has_word_char]. now rewrite IH.
Qed.

Lemma has_word_lstrip (s : string) : has_word_char (PyStr.lstrip s) = has_word_char s.
Proof.
  induction s as [|c s IH]; [reflexivity|]. cbn [PyStr.lstrip].
  destruct (PyStr.isspace c) eqn:Hsp; [|reflexivity].
  cbn [has_word_char]. rewrite IH.
  destruct (word_char c) eqn:Hw; [|reflexivity].
  apply word_char_not_space in Hw as [Hw _]. congruence.
Qed.

Lemma has_word_rstrip (s : string) : has_word_char (PyStr.rstrip s) = has_word_char s.
Proof.
  induction s as [|c s IH]; [reflexivity|]. cbn [PyStr.rstrip has_word_char].
  rewrite <- IH. destruct (PyStr.rstrip s) as [|c' r]; [|reflexivity].
  destruct (PyStr.isspace c) eqn:Hsp; [|reflexivity].
  destruct (word_char c) eqn:Hw; [|reflexivity].
  apply word_char_not_space in Hw as [Hw _]. congruence.
Qed.

Lemma has_word_strip (s : string) : has_word_char (PyStr.strip s) = has_word_char s.
Proof. unfold PyStr.strip. now rewrite has_word_rstrip, has_word_lstrip. Qed.

(** X19.  The cleaning step drops a text exactly when the text has no
    letter, digit or underscore. *)
Theorem text_is_dropped_iff_it_has_no_word_character (text : string) :
  clean_text text = None <-> has_word_char text = false.
Proof.
  unfold clean_text. cbv zeta.
  pose proof (has_word_strip text) as Hs.
  pose proof (cleaned_spaced text) as Hc. cbv zeta in Hc.
  set (r := PyStr.strip (collapse_whitespace false (remove_special (PyStr.lower text))))
    in *.
  assert (Hr : has_word_char r = has_word_char text).
  { subst r. now rewrite has_word_strip, has_word_collapse, has_word_remove_special,
      has_word_lower. }
  destruct (has_word_char text) eqn:Hw.
  - split; [|discriminate]. 
    destruct text as [|c t]; [discriminate Hw|]. cbn [PyStr.truthy andb].
    destruct (PyStr.strip (String c t)) as [|c' t']; [discriminate Hs|].
    cbn [String.length Nat.ltb Nat.leb]. destruct r; [discriminate Hr | discriminate].
  - split; [reflexivity|]. intros _.
    destruct (PyStr.truthy text && _); [|reflexivity].
    destruct Hc as [->|Hn]; [reflexivity|].
    destruct r as [|c r']; [reflexivity|]. unfold normalised in Hn.
    cbn [words_from negb andb has_word_char] in Hn, Hr.
    destruct (Ascii.eqb c " "); [discriminate Hn|].
    apply andb_true_iff in Hn as [H1 _]. apply andb_true_iff in H1 as [H1 _].
    rewrite H1 in Hr. discriminate Hr.
Qed.
